(** * JavaGenerator::Generate, the driver of the Java protoc back end

    A shallow embedding of
    [contrib/libs/protoc/src/google/protobuf/compiler/java/generator.cc]
    and the properties of its option handling, variant selection, two-pass
    validate/generate orchestration and manifest writing.

    [TProtoStringType] is [string]; [std::vector] is [list]; the
    [std::pair] of an option is a Rocq pair.  The caller's [*error] slot is
    passed in and returned.  The [GeneratorContext] is the log of the sinks
    opened through [context->Open], oldest first. *)

From Stdlib Require Import String Ascii List Bool Arith Lia.
From Stdlib Require Import Permutation.
Import ListNotations.
Local Open Scope string_scope.
Local Open Scope list_scope.

(** ** Strings *)

(** [y_absl::StrCat] on two pieces. *)
Definition StrCat (a b : string) : string := a ++ b.

(** [TProtoStringType::empty()]. *)
Definition empty (s : string) : bool :=
  match s with
  | EmptyString => true
  | String _ _ => false
  end.

(** The line feed of the format ["$filename$\n"]. *)
Definition LF : string := String (ascii_of_nat 10) EmptyString.

(** ** Options (options.h) *)

Record Options : Type := mkOptions {
  generate_immutable_code : bool;
  generate_mutable_code : bool;
  generate_shared_code : bool;
  enforce_lite : bool;
  opensource_runtime : bool;
  annotate_code : bool;
  annotation_list_file : string;
  output_list_file : string
}.

(** Modelled from the spec: the default-constructed [Options file_options]
    of options.h, which is not part of the sources at hand.  No variant
    flag, no lite enforcement and no annotation is set, and both list paths
    are empty, before any option is applied.  [opensource_runtime] is
    overwritten by [Generate] before it is read. *)
Definition Options_default : Options :=
  {| generate_immutable_code := false;
     generate_mutable_code := false;
     generate_shared_code := false;
     enforce_lite := false;
     opensource_runtime := false;
     annotate_code := false;
     annotation_list_file := EmptyString;
     output_list_file := EmptyString |}.

(** Field assignments [file_options.f = v]. *)
Definition set_generate_immutable_code (o : Options) (v : bool) : Options :=
  mkOptions v (generate_mutable_code o) (generate_shared_code o)
            (enforce_lite o) (opensource_runtime o) (annotate_code o)
            (annotation_list_file o) (output_list_file o).

Definition set_generate_mutable_code (o : Options) (v : bool) : Options :=
  mkOptions (generate_immutable_code o) v (generate_shared_code o)
            (enforce_lite o) (opensource_runtime o) (annotate_code o)
            (annotation_list_file o) (output_list_file o).

Definition set_generate_shared_code (o : Options) (v : bool) : Options :=
  mkOptions (generate_immutable_code o) (generate_mutable_code o) v
            (enforce_lite o) (opensource_runtime o) (annotate_code o)
            (annotation_list_file o) (output_list_file o).

Definition set_enforce_lite (o : Options) (v : bool) : Options :=
  mkOptions (generate_immutable_code o) (generate_mutable_code o)
            (generate_shared_code o) v (opensource_runtime o)
            (annotate_code o) (annotation_list_file o) (output_list_file o).

Definition set_opensource_runtime (o : Options) (v : bool) : Options :=
  mkOptions (generate_immutable_code o) (generate_mutable_code o)
            (generate_shared_code o) (enforce_lite o) v (annotate_code o)
            (annotation_list_file o) (output_list_file o).

Definition set_annotate_code (o : Options) (v : bool) : Options :=
  mkOptions (generate_immutable_code o) (generate_mutable_code o)
            (generate_shared_code o) (enforce_lite o) (opensource_runtime o)
            v (annotation_list_file o) (output_list_file o).

Definition set_annotation_list_file (o : Options) (v : string) : Options :=
  mkOptions (generate_immutable_code o) (generate_mutable_code o)
            (generate_shared_code o) (enforce_lite o) (opensource_runtime o)
            (annotate_code o) v (output_list_file o).

Definition set_output_list_file (o : Options) (v : string) : Options :=
  mkOptions (generate_immutable_code o) (generate_mutable_code o)
            (generate_shared_code o) (enforce_lite o) (opensource_runtime o)
            (annotate_code o) (annotation_list_file o) v.

(** ** Parsing the generator options (generator.cc, lines 76-112) *)

(** One parsed option, [std::pair<TProtoStringType, TProtoStringType>]. *)
Definition RawOption : Type := (string * string)%type.

(** The body of the loop over [options] (lines 79-98): the if/else chain on
    [option.first].  [inl msg] is the [return false] of the last branch with
    [msg] stored in [*error]; [inr] is the updated [file_options]. *)
Definition apply_option (option : RawOption) (file_options : Options)
  : string + Options :=
  if fst option =? "output_list_file" then
    inr (set_output_list_file file_options (snd option))
  else if fst option =? "immutable" then
    inr (set_generate_immutable_code file_options true)
  else if fst option =? "mutable" then
    inr (set_generate_mutable_code file_options true)
  else if fst option =? "shared" then
    inr (set_generate_shared_code file_options true)
  else if fst option =? "lite" then
    inr (set_enforce_lite file_options true)
  else if fst option =? "annotate_code" then
    inr (set_annotate_code file_options true)
  else if fst option =? "annotation_list_file" then
    inr (set_annotation_list_file file_options (snd option))
  else
    inl (StrCat "Unknown generator option: " (fst option)).

(** The loop [for (auto& option : options)] (lines 78-99).  The result
    carries the [file_options] reached when the loop was left, and the
    message of the abort if it was left by [return false]. *)
Fixpoint apply_options (options : list RawOption) (file_options : Options)
  : Options * option string :=
  match options with
  | [] => (file_options, None)
  | option :: rest =>
      match apply_option option file_options with
      | inl msg => (file_options, Some msg)
      | inr file_options' => apply_options rest file_options'
      end
  end.

(** The fixed diagnostic of line 102. *)
Definition lite_mutable_error : string :=
  "lite runtime generator option cannot be used with mutable API.".

(** Lines 107-112: "By default we generate immutable code and shared code
    for immutable API." *)
Definition fill_defaults (file_options : Options) : Options :=
  if negb (generate_immutable_code file_options)
     && negb (generate_mutable_code file_options)
     && negb (generate_shared_code file_options)
  then set_generate_shared_code
         (set_generate_immutable_code file_options true) true
  else file_options.

(** Lines 74-112 as one function of the parsed options and of the member
    [opensource_runtime_]: [inl msg] when [Generate] returns false with
    [msg] in [*error], [inr file_options] when it goes on to generation. *)
Definition configure (opensource_runtime_ : bool) (options : list RawOption)
  : string + Options :=
  let file_options := Options_default in
  let file_options := set_opensource_runtime file_options opensource_runtime_ in
  match apply_options options file_options with
  | (_, Some msg) => inl msg
  | (file_options, None) =>
      if enforce_lite file_options && generate_mutable_code file_options
      then inl lite_mutable_error
      else inr (fill_defaults file_options)
  end.

(** ** The collaborators of the driver *)

(** A [FileGenerator] as [Generate] builds it (lines 123-130): the
    descriptor, a copy of the options and the [immutable] flag handed to the
    constructor.  The class lives in file.h; the driver uses it only through
    the methods of [Collaborators] below. *)
Record FileGenerator (FileDescriptor : Type) : Type := mkFileGenerator {
  file_ : FileDescriptor;
  options_ : Options;
  immutable_api_ : bool
}.
Arguments mkFileGenerator {FileDescriptor} _ _ _.
Arguments file_ {FileDescriptor} _.
Arguments options_ {FileDescriptor} _.
Arguments immutable_api_ {FileDescriptor} _.

(** A sink obtained from [context->Open(path)]: its path and the bytes that
    were written to it by the time it was released. *)
Definition Sink : Type := (string * string)%type.

(** The [GeneratorContext] seen through [Open]: the sinks opened so far, in
    the order of the calls. *)
Definition GeneratorContext : Type := list Sink.

Definition Open (context : GeneratorContext) (path data : string)
  : GeneratorContext :=
  context ++ [(path, data)].

(** What the generation pass threads through its iterations: the context
    and the two vectors declared at lines 117-118. *)
Record Run : Type := mkRun {
  context : GeneratorContext;
  all_files : list string;
  all_annotations : list string
}.

(** The code [Generate] calls and that is defined elsewhere
    (code_generator.cc, helpers.cc, file.cc, descriptor.pb.cc), each with the
    arguments the call site passes and the objects it may write.
    - [Validate] receives the [error] slot and nothing else;
    - [FileGenerator_Generate] is [file_generator->Generate(&printer)]: the
      bytes printed to the main file and the [GeneratedCodeInfo] gathered by
      the collector, which is attached only when its flag is true;
    - [GenerateSiblings] receives the package directory, the context and
      both vectors, and may change all three. *)
Class Collaborators (FileDescriptor GeneratedCodeInfo : Type) : Type := {
  ParseGeneratorParameter : string -> list RawOption;
  JavaPackageToDir : string -> string;
  Validate : FileGenerator FileDescriptor -> string -> bool * string;
  java_package : FileGenerator FileDescriptor -> string;
  classname : FileGenerator FileDescriptor -> string;
  FileGenerator_Generate :
    FileGenerator FileDescriptor -> bool -> string * GeneratedCodeInfo;
  GenerateSiblings : FileGenerator FileDescriptor -> string -> Run -> Run;
  SerializeToZeroCopyStream : GeneratedCodeInfo -> string
}.

(** The object [Generate] is called on: its only member read here is
    [opensource_runtime_] (line 76). *)
Record JavaGenerator : Type := mkJavaGenerator {
  opensource_runtime_ : bool
}.

(** What a call of [Generate] leaves behind: the returned flag, the content
    of [*error], and the context together with the two vectors as they were
    when the call returned (both vectors empty when it returned before their
    declaration). *)
Record Outcome : Type := mkOutcome {
  result : bool;
  error_slot : string;
  run : Run
}.

(** Modelled from the spec: [io::Printer::Print("$filename$\n", "filename",
    f)] of printer.h, not part of the sources at hand, on a printer without
    indentation: it writes the path followed by a line feed. *)
Definition Printer_Print (stream filename : string) : string :=
  StrCat stream (StrCat filename LF).

(** The printing loops of lines 183-185 and 194-197, from an empty sink. *)
Definition print_list (paths : list string) : string :=
  fold_left Printer_Print paths EmptyString.

Section Driver.

Context {FileDescriptor GeneratedCodeInfo : Type}.
Context {collab : Collaborators FileDescriptor GeneratedCodeInfo}.

(** Lines 121-131: the generators, in the order they are emplaced. *)
Definition make_file_generators (file : FileDescriptor)
    (file_options : Options) : list (FileGenerator FileDescriptor) :=
  (if generate_immutable_code file_options
   then [mkFileGenerator file file_options (* immutable = *) true]
   else [])
  ++
  (if generate_mutable_code file_options
   then [mkFileGenerator file file_options (* mutable = *) false]
   else []).

(** Lines 133-137: the validation pass.  [false] is the [return false] of
    line 135; the second component is [*error] when the pass is left. *)
Fixpoint validate_all (file_generators : list (FileGenerator FileDescriptor))
    (error : string) : bool * string :=
  match file_generators with
  | [] => (true, error)
  | file_generator :: rest =>
      let (ok, error') := Validate file_generator error in
      if ok then validate_all rest error' else (false, error')
  end.

(** Lines 140-170: one iteration of the generation pass. *)
Definition generate_one (file_options : Options)
    (r : Run) (file_generator : FileGenerator FileDescriptor) : Run :=
  let package_dir := JavaPackageToDir (java_package file_generator) in
  let java_filename :=
    StrCat package_dir (StrCat (classname file_generator) ".java") in
  let files := all_files r ++ [java_filename] in
  let info_full_path := StrCat java_filename ".pb.meta" in
  let annots :=
    if annotate_code file_options
    then all_annotations r ++ [info_full_path]
    else all_annotations r in
  (* Generate main java file. *)
  let (text, annotations) :=
    FileGenerator_Generate file_generator (annotate_code file_options) in
  let ctx := Open (context r) java_filename text in
  (* Generate sibling files. *)
  let r' := GenerateSiblings file_generator package_dir
              (mkRun ctx files annots) in
  if annotate_code file_options
  then mkRun (Open (context r') info_full_path
                (SerializeToZeroCopyStream annotations))
             (all_files r') (all_annotations r')
  else r'.

(** Lines 139-171: the generation pass. *)
Definition generate_all (file_options : Options)
    (file_generators : list (FileGenerator FileDescriptor)) (r : Run)
  : Run :=
  fold_left (generate_one file_options) file_generators r.

(** Lines 177-186: "Generate output list if requested." *)
Definition write_output_list (file_options : Options) (r : Run) : Run :=
  if negb (empty (output_list_file file_options))
  then mkRun (Open (context r) (output_list_file file_options)
                (print_list (all_files r)))
             (all_files r) (all_annotations r)
  else r.

(** Lines 188-198: the same for the annotation files. *)
Definition write_annotation_list (file_options : Options) (r : Run) : Run :=
  if negb (empty (annotation_list_file file_options))
  then mkRun (Open (context r) (annotation_list_file file_options)
                (print_list (all_annotations r)))
             (all_files r) (all_annotations r)
  else r.

(** [JavaGenerator::Generate] (lines 65-201). *)
Definition Generate (this : JavaGenerator) (file : FileDescriptor)
    (parameter : string) (context : GeneratorContext) (error : string)
  : Outcome :=
  let options := ParseGeneratorParameter parameter in
  match configure (opensource_runtime_ this) options with
  | inl msg => mkOutcome false msg (mkRun context [] [])
  | inr file_options =>
      let file_generators := make_file_generators file file_options in
      match validate_all file_generators error with
      | (false, error') => mkOutcome false error' (mkRun context [] [])
      | (true, error') =>
          let r := generate_all file_options file_generators
                     (mkRun context [] []) in
          let r := write_output_list file_options r in
          let r := write_annotation_list file_options r in
          mkOutcome true error' r
      end
  end.

End Driver.

(** ** A small back end to run the driver on

    A stand-in for the collaborators, simple enough to evaluate: a file is
    its Java package, its outer class name, the messages that get a file of
    their own, and a flag saying that the mutable API cannot be generated
    for it. *)
Module Demo.

Record FileDescriptor : Type := mkFile {
  package : string;
  outer : string;
  messages : list string;
  mutable_conflict : bool
}.

Definition GeneratedCodeInfo : Type := list string.

(** Comma-separated fields of a parameter string. *)
Fixpoint fields (s cur : string) : list string :=
  match s with
  | EmptyString => [cur]
  | String c s' =>
      if Ascii.eqb c ","%char then cur :: fields s' EmptyString
      else fields s' (StrCat cur (String c EmptyString))
  end.

(** [key=value], or a bare [key] with an empty value. *)
Fixpoint key_value (s : string) : RawOption :=
  match s with
  | EmptyString => (EmptyString, EmptyString)
  | String c s' =>
      if Ascii.eqb c "="%char then (EmptyString, s')
      else let (k, v) := key_value s' in (String c k, v)
  end.

Definition parse (parameter : string) : list RawOption :=
  map key_value
      (filter (fun f => negb (empty f)) (fields parameter EmptyString)).

Fixpoint dots_to_slashes (s : string) : string :=
  match s with
  | EmptyString => EmptyString
  | String c s' =>
      String (if Ascii.eqb c "."%char then "/"%char else c)
             (dots_to_slashes s')
  end.

Definition package_to_dir (p : string) : string :=
  if empty p then p else StrCat (dots_to_slashes p) "/".

Definition validate (g : FileGenerator FileDescriptor) (error : string)
  : bool * string :=
  if mutable_conflict (file_ g) && negb (immutable_api_ g)
  then (false, StrCat (outer (file_ g)) ": no mutable API for this file.")
  else (true, error).

Definition generate (g : FileGenerator FileDescriptor) (collect : bool)
  : string * GeneratedCodeInfo :=
  (StrCat "class " (StrCat (outer (file_ g)) " {}"),
   if collect then [outer (file_ g)] else []).

Definition serialize (info : GeneratedCodeInfo) : string :=
  String.concat ";" info.

Definition sibling (g : FileGenerator FileDescriptor) (dir : string)
    (r : Run) (message : string) : Run :=
  let filename := StrCat dir (StrCat message ".java") in
  let ctx :=
    Open (context r) filename (StrCat "class " (StrCat message " {}")) in
  if annotate_code (options_ g)
  then mkRun (Open ctx (StrCat filename ".pb.meta") message)
             (all_files r ++ [filename])
             (all_annotations r ++ [StrCat filename ".pb.meta"])
  else mkRun ctx (all_files r ++ [filename]) (all_annotations r).

Definition siblings (g : FileGenerator FileDescriptor) (dir : string)
    (r : Run) : Run :=
  fold_left (sibling g dir) (messages (file_ g)) r.

#[global] Instance backend : Collaborators FileDescriptor GeneratedCodeInfo :=
  {| ParseGeneratorParameter := parse;
     JavaPackageToDir := package_to_dir;
     Validate := validate;
     java_package := fun g => package (file_ g);
     classname := fun g =>
       if immutable_api_ g then outer (file_ g)
       else StrCat "Mutable" (outer (file_ g));
     FileGenerator_Generate := generate;
     GenerateSiblings := siblings;
     SerializeToZeroCopyStream := serialize |}.

Definition protoc : JavaGenerator := mkJavaGenerator true.

(** A file with two messages that has no mutable API, and one that has. *)
Definition shop : FileDescriptor :=
  mkFile "com.shop" "Shop" ["Item"; "Cart"] true.

Definition unit : FileDescriptor :=
  mkFile "com.shop" "Unit" ["Gram"] false.

(** A file in the default package: [A.java] and its sibling [B.java]. *)
Definition ab : FileDescriptor :=
  mkFile EmptyString "A" ["B"] false.

End Demo.

(** ** Vocabulary of the properties *)

(** The keys the if/else chain of lines 79-94 tests for. *)
Definition recognized (key : string) : bool :=
  (key =? "output_list_file") || (key =? "immutable") || (key =? "mutable")
  || (key =? "shared") || (key =? "lite") || (key =? "annotate_code")
  || (key =? "annotation_list_file").

(** The keys that set a boolean field. *)
Definition flag_key (key : string) : bool :=
  (key =? "immutable") || (key =? "mutable") || (key =? "shared")
  || (key =? "lite") || (key =? "annotate_code").

(** [key] occurs among the parsed options. *)
Definition has_key (key : string) (options : list RawOption) : bool :=
  existsb (fun option => fst option =? key) options.

(** The value of the last occurrence of [key], [default] without one. *)
Definition last_value (key : string) (options : list RawOption)
    (default : string) : string :=
  fold_left (fun acc option => if fst option =? key then snd option else acc)
            options default.

Definition keys (options : list RawOption) : list string := map fst options.

(** One line per path: each path followed by a line feed, in order. *)
Fixpoint lines (paths : list string) : string :=
  match paths with
  | [] => EmptyString
  | path :: rest => StrCat (StrCat path LF) (lines rest)
  end.

(** [Validate] leaves [*error] alone when it accepts the file. *)
Definition Validate_writes_error_only_on_failure
    {FileDescriptor GeneratedCodeInfo}
    (collab : Collaborators FileDescriptor GeneratedCodeInfo) : Prop :=
  forall file_generator error,
    fst (Validate file_generator error) = true ->
    snd (Validate file_generator error) = error.

(** [GenerateSiblings] leaves [all_annotations] alone for a generator whose
    options do not ask for annotations. *)
Definition Siblings_annotate_only_on_request {FileDescriptor GeneratedCodeInfo}
    (collab : Collaborators FileDescriptor GeneratedCodeInfo) : Prop :=
  forall file_generator package_dir r,
    annotate_code (options_ file_generator) = false ->
    all_annotations (GenerateSiblings file_generator package_dir r) =
      all_annotations r.

(** The keys whose value is stored (lines 79-80 and 93-94). *)
Definition path_key (key : string) : bool :=
  (key =? "output_list_file") || (key =? "annotation_list_file").

(** An option with its value dropped unless its key is a path key. *)
Definition forget_unused_value (option : RawOption) : RawOption :=
  if path_key (fst option) then option else (fst option, EmptyString).

(** [r'] continues [r]: the context and both vectors of [r] are still
    there, in place, with whatever came after them. *)
Definition extends (r r' : Run) : Prop :=
  exists sinks files annotations,
    context r' = context r ++ sinks /\
    all_files r' = all_files r ++ files /\
    all_annotations r' = all_annotations r ++ annotations.

(** [GenerateSiblings] only opens further sinks and only pushes further
    paths onto the two vectors. *)
Definition Siblings_only_append {FileDescriptor GeneratedCodeInfo}
    (collab : Collaborators FileDescriptor GeneratedCodeInfo) : Prop :=
  forall file_generator package_dir r,
    extends r (GenerateSiblings file_generator package_dir r).

(** The main file of a generator, as lines 140-143 name it. *)
Definition java_filename_of {FileDescriptor GeneratedCodeInfo}
    {collab : Collaborators FileDescriptor GeneratedCodeInfo}
    (file_generator : FileGenerator FileDescriptor) : string :=
  StrCat (JavaPackageToDir (java_package file_generator))
         (StrCat (classname file_generator) ".java").

(** A path without a line feed in it. *)
Fixpoint no_line_feed (path : string) : bool :=
  match path with
  | EmptyString => true
  | String c rest => negb (Ascii.eqb c (ascii_of_nat 10)) && no_line_feed rest
  end.

(** Reading a manifest back: the text before each line feed; text after
    the last line feed is not a line. *)
Fixpoint read_lines (text : string) : list string :=
  match text with
  | EmptyString => []
  | String c rest =>
      if Ascii.eqb c (ascii_of_nat 10) then EmptyString :: read_lines rest
      else match read_lines rest with
           | [] => []
           | line :: more => String c line :: more
           end
  end.

(** ** The option loop *)

(** Splits the chain of key tests of [apply_option] on the key [k], turning
    the test that succeeded into an equation on [k]. *)
Ltac split_key k :=
  repeat match goal with
  | |- context [String.eqb k ?lit] =>
      let E := fresh "E" in
      destruct (String.eqb k lit) eqn:E;
      [apply String.eqb_eq in E; subst k |]
  end.

Lemma has_key_In (key : string) (options : list RawOption) :
  has_key key options = true <-> In key (keys options).
Proof.
  unfold has_key, keys. rewrite existsb_exists, in_map_iff. split.
  - intros [o [Hin Heq]]. apply String.eqb_eq in Heq. now exists o.
  - intros [o [Heq Hin]]. exists o. split; [assumption|].
    now apply String.eqb_eq.
Qed.

Lemma has_key_absent (key : string) (options : list RawOption) :
  ~ In key (keys options) -> has_key key options = false.
Proof.
  intros H. destruct (has_key key options) eqn:E; [|reflexivity].
  apply has_key_In in E. contradiction.
Qed.

Lemma last_value_absent (key : string) (options : list RawOption) :
  forall default,
    ~ In key (keys options) -> last_value key options default = default.
Proof.
  unfold last_value, keys.
  induction options as [|o rest IH]; intros default Hno; simpl; [reflexivity|].
  simpl in Hno. destruct (fst o =? key) eqn:E.
  - apply String.eqb_eq in E. exfalso. apply Hno. now left.
  - apply IH. intros Hin. apply Hno. now right.
Qed.

Lemma apply_option_unknown (option : RawOption) (file_options : Options) :
  recognized (fst option) = false ->
  apply_option option file_options =
    inl (StrCat "Unknown generator option: " (fst option)).
Proof.
  destruct option as [k v]. unfold recognized, apply_option. simpl fst.
  split_key k; simpl; intros H; try discriminate H; reflexivity.
Qed.

(** What one recognised option does to each field. *)
Lemma apply_option_fields (option : RawOption) (fo fo' : Options) :
  apply_option option fo = inr fo' ->
  recognized (fst option) = true /\
  generate_immutable_code fo' =
    generate_immutable_code fo || (fst option =? "immutable") /\
  generate_mutable_code fo' =
    generate_mutable_code fo || (fst option =? "mutable") /\
  generate_shared_code fo' =
    generate_shared_code fo || (fst option =? "shared") /\
  enforce_lite fo' = enforce_lite fo || (fst option =? "lite") /\
  opensource_runtime fo' = opensource_runtime fo /\
  annotate_code fo' = annotate_code fo || (fst option =? "annotate_code") /\
  annotation_list_file fo' =
    (if fst option =? "annotation_list_file" then snd option
     else annotation_list_file fo) /\
  output_list_file fo' =
    (if fst option =? "output_list_file" then snd option
     else output_list_file fo).
Proof.
  destruct option as [k v]. unfold recognized, apply_option. simpl fst.
  simpl snd. split_key k; intros H; inversion H; subst fo'; clear H; simpl;
    rewrite ?orb_false_r, ?orb_true_r; repeat split; reflexivity.
Qed.

Lemma apply_option_recognized (option : RawOption) (fo : Options) :
  recognized (fst option) = true ->
  exists fo', apply_option option fo = inr fo'.
Proof.
  intros H. destruct (apply_option option fo) as [msg|fo'] eqn:E.
  - destruct (recognized (fst option)) eqn:R; [|discriminate].
    destruct option as [k v]. unfold recognized in R. unfold apply_option in E.
    simpl fst in *. revert R E. split_key k; simpl; intros; discriminate.
  - now exists fo'.
Qed.

(** The loop over a concatenation: the second part runs from where the
    first one stopped, unless the first one aborted. *)
Lemma apply_options_app (a b : list RawOption) :
  forall fo,
    apply_options (a ++ b) fo =
      match apply_options a fo with
      | (fo', None) => apply_options b fo'
      | stop => stop
      end.
Proof.
  induction a as [|o a IH]; intros fo; simpl; [reflexivity|].
  destruct (apply_option o fo) as [msg|fo1]; [reflexivity|apply IH].
Qed.

(** A loop that runs to its end has seen recognised keys only, and its
    effect on each field is read off the keys and values it went through. *)
Lemma apply_options_fields (options : list RawOption) :
  forall fo fo',
    apply_options options fo = (fo', None) ->
    Forall (fun option => recognized (fst option) = true) options /\
    generate_immutable_code fo' =
      generate_immutable_code fo || has_key "immutable" options /\
    generate_mutable_code fo' =
      generate_mutable_code fo || has_key "mutable" options /\
    generate_shared_code fo' =
      generate_shared_code fo || has_key "shared" options /\
    enforce_lite fo' = enforce_lite fo || has_key "lite" options /\
    opensource_runtime fo' = opensource_runtime fo /\
    annotate_code fo' = annotate_code fo || has_key "annotate_code" options /\
    annotation_list_file fo' =
      last_value "annotation_list_file" options (annotation_list_file fo) /\
    output_list_file fo' =
      last_value "output_list_file" options (output_list_file fo).
Proof.
  induction options as [|o rest IH]; intros fo fo' H; simpl in H.
  - inversion H; subst. simpl. rewrite !orb_false_r. repeat split.
    constructor.
  - destruct (apply_option o fo) as [msg|fo1] eqn:E; [discriminate|].
    apply apply_option_fields in E.
    destruct E as (R & E1 & E2 & E3 & E4 & E5 & E6 & E7 & E8).
    apply IH in H.
    destruct H as (F & H1 & H2 & H3 & H4 & H5 & H6 & H7 & H8).
    unfold has_key, last_value in *. simpl.
    rewrite H1, H2, H3, H4, H5, H6, H7, H8, E1, E2, E3, E4, E5, E6, E7, E8.
    rewrite !orb_assoc. repeat split. now constructor.
Qed.

(** Recognised keys never abort the loop. *)
Lemma apply_options_recognized (options : list RawOption) :
  forall fo,
    Forall (fun option => recognized (fst option) = true) options ->
    exists fo', apply_options options fo = (fo', None).
Proof.
  induction options as [|o rest IH]; intros fo F; simpl.
  - now exists fo.
  - inversion F as [|? ? Ho Hrest]; subst.
    destruct (apply_option_recognized o fo Ho) as [fo1 E]. rewrite E.
    now apply IH.
Qed.

(** The loop stops at the first unrecognised key, with the fields as the
    options before it left them. *)
Lemma apply_options_first_unknown (pre post : list RawOption)
    (key value : string) (fo : Options) :
  Forall (fun option => recognized (fst option) = true) pre ->
  recognized key = false ->
  apply_options (pre ++ (key, value) :: post) fo =
    (fst (apply_options pre fo),
     Some (StrCat "Unknown generator option: " key)).
Proof.
  intros F U. rewrite apply_options_app.
  destruct (apply_options_recognized pre fo F) as [fo1 E]. rewrite E. simpl.
  now rewrite (apply_option_unknown (key, value) fo1 U).
Qed.

(** A list with an unrecognised key splits at the first one. *)
Lemma first_unknown_split (options : list RawOption) (key : string) :
  In key (keys options) -> recognized key = false ->
  exists pre k v post,
    options = pre ++ (k, v) :: post /\
    Forall (fun option => recognized (fst option) = true) pre /\
    recognized k = false.
Proof.
  induction options as [|[k0 v0] rest IH]; simpl; intros Hin U;
    [contradiction|].
  destruct (recognized k0) eqn:R.
  - destruct Hin as [Heq|Hin]; [subst; congruence|].
    destruct (IH Hin U) as (pre & k & v & post & Eq & F & Uk).
    exists ((k0, v0) :: pre), k, v, post. subst rest. repeat split; auto.
  - exists [], k0, v0, rest. repeat split; auto.
Qed.

(** What [configure] returns when it succeeds: the loop ran to its end, the
    lite/mutable test passed, and the defaults were filled in. *)
Lemma configure_inr (osr : bool) (options : list RawOption) (cfg : Options) :
  configure osr options = inr cfg ->
  exists fo,
    apply_options options (set_opensource_runtime Options_default osr)
      = (fo, None) /\
    enforce_lite fo && generate_mutable_code fo = false /\
    cfg = fill_defaults fo.
Proof.
  unfold configure. intros H.
  destruct (apply_options options _) as [fo [msg|]] eqn:E; [discriminate|].
  destruct (enforce_lite fo && generate_mutable_code fo) eqn:L; [discriminate|].
  inversion H. now exists fo.
Qed.

(** ** Defaults and invariants of the configuration *)

(** C2.  When none of the keys [immutable], [mutable], [shared] occurs among
    the options and the configuration is accepted, it asks for the immutable
    and the shared code and not for the mutable code; without any option the
    configuration is exactly the default one with these flags. *)
Theorem default_variants_when_none_requested
    (osr : bool) (options : list RawOption) (cfg : Options) :
  ~ In "immutable" (keys options) ->
  ~ In "mutable" (keys options) ->
  ~ In "shared" (keys options) ->
  configure osr options = inr cfg ->
  (generate_immutable_code cfg = true /\
   generate_shared_code cfg = true /\
   generate_mutable_code cfg = false) /\
  configure osr [] =
    inr {| generate_immutable_code := true;
           generate_mutable_code := false;
           generate_shared_code := true;
           enforce_lite := false;
           opensource_runtime := osr;
           annotate_code := false;
           annotation_list_file := EmptyString;
           output_list_file := EmptyString |}.
Proof.
  intros Hi Hm Hs H. split; [|reflexivity].
  apply configure_inr in H. destruct H as (fo & E & _ & ->).
  apply apply_options_fields in E.
  destruct E as (_ & E1 & E2 & E3 & _).
  rewrite (has_key_absent _ _ Hi) in E1.
  rewrite (has_key_absent _ _ Hm) in E2.
  rewrite (has_key_absent _ _ Hs) in E3.
  simpl in E1, E2, E3. unfold fill_defaults. rewrite E1, E2, E3. simpl.
  repeat split. exact E2.
Qed.

Lemma default_variants_when_none_requested_witness :
  (generate_immutable_code
     (mkOptions true false true true true false EmptyString "out.list")
   = true /\
   generate_shared_code
     (mkOptions true false true true true false EmptyString "out.list")
   = true /\
   generate_mutable_code
     (mkOptions true false true true true false EmptyString "out.list") = false)
  /\ configure true [] =
       inr (mkOptions true false true false true false EmptyString EmptyString).
Proof.
  apply (default_variants_when_none_requested true
           [("lite", EmptyString); ("output_list_file", "out.list")]).
  - simpl. intros [H|[H|[]]]; discriminate H.
  - simpl. intros [H|[H|[]]]; discriminate H.
  - simpl. intros [H|[H|[]]]; discriminate H.
  - reflexivity.
Defined.

(** C5.  An accepted configuration asks for at least one of the immutable,
    mutable and shared code, and never for the lite runtime together with
    the mutable code. *)
Theorem accepted_configuration_invariants
    (osr : bool) (options : list RawOption) (cfg : Options) :
  configure osr options = inr cfg ->
  generate_immutable_code cfg || generate_mutable_code cfg
    || generate_shared_code cfg = true /\
  enforce_lite cfg && generate_mutable_code cfg = false.
Proof.
  intros H. apply configure_inr in H. destruct H as (fo & _ & L & ->).
  unfold fill_defaults.
  destruct (generate_immutable_code fo) eqn:I,
           (generate_mutable_code fo) eqn:M,
           (generate_shared_code fo) eqn:S;
    simpl; rewrite ?I, ?M, ?S; simpl; split; auto;
    rewrite ?andb_false_r; reflexivity.
Qed.

Lemma accepted_configuration_invariants_witness :
  generate_immutable_code
    (mkOptions false true true false false true EmptyString EmptyString)
  || generate_mutable_code
    (mkOptions false true true false false true EmptyString EmptyString)
  || generate_shared_code
    (mkOptions false true true false false true EmptyString EmptyString) = true
  /\ enforce_lite
       (mkOptions false true true false false true EmptyString EmptyString)
     && generate_mutable_code
       (mkOptions false true true false false true EmptyString EmptyString)
     = false.
Proof.
  apply (accepted_configuration_invariants false
           [("shared", EmptyString); ("mutable", EmptyString);
            ("annotate_code", EmptyString)]).
  reflexivity.
Defined.

(** ** Order of the options, repeated keys *)

(** A flag key met again after the loop has already gone through it leaves
    every field as it is. *)
Lemma flag_key_again (key v v' : string) (pre mid : list RawOption)
    (fo fo1 : Options) :
  flag_key key = true ->
  apply_options (pre ++ (key, v) :: mid) fo = (fo1, None) ->
  apply_option (key, v') fo1 = inr fo1.
Proof.
  intros K E. apply apply_options_fields in E.
  destruct E as (_ & E1 & E2 & E3 & E4 & _ & E6 & _).
  assert (Hin : has_key key (pre ++ (key, v) :: mid) = true).
  { apply has_key_In. unfold keys. rewrite map_app. apply in_or_app.
    right. now left. }
  revert K E1 E2 E3 E4 E6 Hin. unfold flag_key.
  split_key key; simpl; try discriminate; intros _ F1 F2 F3 F4 F6 Hin;
    rewrite Hin, orb_true_r in *; destruct fo1; simpl in *; subst;
    reflexivity.
Qed.

(** C9.  The options are applied in the order of the list: the loop over
    [pre ++ post] is the loop over [post] started from what the loop over
    [pre] left.  A second occurrence of a boolean key changes nothing, and
    of a path-valued key the last occurrence is the one whose value is
    kept. *)
Theorem options_applied_in_order_last_wins
    (pre mid post : list RawOption) (key v v' : string) (fo : Options) :
  apply_options (pre ++ post) fo =
    match apply_options pre fo with
    | (fo', None) => apply_options post fo'
    | stop => stop
    end /\
  (flag_key key = true ->
   apply_options (pre ++ (key, v) :: mid ++ (key, v') :: post) fo =
     apply_options (pre ++ (key, v) :: mid ++ post) fo) /\
  (forall fo',
     ~ In "output_list_file" (keys post) ->
     apply_options (pre ++ ("output_list_file", v) :: post) fo = (fo', None) ->
     output_list_file fo' = v) /\
  (forall fo',
     ~ In "annotation_list_file" (keys post) ->
     apply_options (pre ++ ("annotation_list_file", v) :: post) fo
       = (fo', None) ->
     annotation_list_file fo' = v).
Proof.
  split; [apply apply_options_app|]. split; [|split].
  - intros K.
    replace (pre ++ (key, v) :: mid ++ (key, v') :: post)
      with ((pre ++ (key, v) :: mid) ++ (key, v') :: post)
      by (rewrite <- app_assoc; reflexivity).
    replace (pre ++ (key, v) :: mid ++ post)
      with ((pre ++ (key, v) :: mid) ++ post)
      by (rewrite <- app_assoc; reflexivity).
    rewrite !(apply_options_app (pre ++ (key, v) :: mid)).
    destruct (apply_options (pre ++ (key, v) :: mid) fo) as [fo1 [msg|]] eqn:E;
      [reflexivity|].
    simpl. now rewrite (flag_key_again key v v' pre mid fo fo1 K E).
  - intros fo' Hno E. apply apply_options_fields in E.
    destruct E as (_ & _ & _ & _ & _ & _ & _ & _ & E8). rewrite E8.
    unfold last_value. rewrite fold_left_app. simpl.
    now apply last_value_absent.
  - intros fo' Hno E. apply apply_options_fields in E.
    destruct E as (_ & _ & _ & _ & _ & _ & _ & E7 & _). rewrite E7.
    unfold last_value. rewrite fold_left_app. simpl.
    now apply last_value_absent.
Qed.

Lemma options_applied_in_order_last_wins_witness :
  apply_options
    ([("output_list_file", "a.list")]
       ++ ("lite", EmptyString)
       :: [("output_list_file", "b.list")]
       ++ ("lite", "again") :: [("immutable", EmptyString)])
    Options_default
  = (mkOptions true false false true false false EmptyString "b.list", None)
  /\ output_list_file
       (mkOptions false false false true false false "m.list" "z.list")
     = "z.list"
  /\ annotation_list_file
       (mkOptions false false false true false false "z.list" EmptyString)
     = "z.list".
Proof.
  split; [|split].
  - destruct (options_applied_in_order_last_wins
                [("output_list_file", "a.list")]
                [("output_list_file", "b.list")]
                [("immutable", EmptyString)]
                "lite" EmptyString "again" Options_default)
      as (_ & Hflag & _).
    etransitivity; [apply (Hflag eq_refl)|reflexivity].
  - destruct (options_applied_in_order_last_wins
                [("output_list_file", "a.list");
                 ("annotation_list_file", "m.list")]
                [] [("lite", EmptyString)]
                EmptyString "z.list" EmptyString Options_default)
      as (_ & _ & Hout & _).
    apply Hout.
    + simpl. intros [H|[]]; discriminate H.
    + reflexivity.
  - destruct (options_applied_in_order_last_wins
                [("annotation_list_file", "a.list")]
                [] [("lite", EmptyString)]
                EmptyString "z.list" EmptyString Options_default)
      as (_ & _ & _ & Hann).
    apply Hann.
    + simpl. intros [H|[]]; discriminate H.
    + reflexivity.
Defined.

(** ** Configuration errors *)

Section ConfigurationErrors.

Context {FileDescriptor GeneratedCodeInfo : Type}.
Context {collab : Collaborators FileDescriptor GeneratedCodeInfo}.

(** A rejected configuration ends the call at once: the message is in
    [*error] and the context is the caller's. *)
Lemma Generate_rejected (this : JavaGenerator) (file : FileDescriptor)
    (parameter : string) (ctx : GeneratorContext) (error msg : string) :
  configure (opensource_runtime_ this) (ParseGeneratorParameter parameter)
    = inl msg ->
  Generate this file parameter ctx error
    = mkOutcome false msg (mkRun ctx [] []).
Proof. unfold Generate. now intros ->. Qed.

(** C3.  When some key of the parsed options is not one of the seven
    recognised ones, [Generate] returns false with the message
    ["Unknown generator option: "] followed by the first such key and
    opens nothing; the option loop stops there, with the fields as the
    options before that key left them; and the message is not the one of
    the lite/mutable conflict, whatever the other options are. *)
Theorem unknown_option_fails_fast (this : JavaGenerator)
    (file : FileDescriptor) (parameter : string) (ctx : GeneratorContext)
    (error key : string) :
  In key (keys (ParseGeneratorParameter parameter)) ->
  recognized key = false ->
  exists pre k v post,
    ParseGeneratorParameter parameter = pre ++ (k, v) :: post /\
    Forall (fun option => recognized (fst option) = true) pre /\
    recognized k = false /\
    Generate this file parameter ctx error =
      mkOutcome false (StrCat "Unknown generator option: " k)
                (mkRun ctx [] []) /\
    apply_options (ParseGeneratorParameter parameter)
      (set_opensource_runtime Options_default (opensource_runtime_ this)) =
      (fst (apply_options pre
              (set_opensource_runtime Options_default
                 (opensource_runtime_ this))),
       Some (StrCat "Unknown generator option: " k)) /\
    StrCat "Unknown generator option: " k <> lite_mutable_error.
Proof.
  intros Hin U.
  destruct (first_unknown_split _ _ Hin U)
    as (pre & k & v & post & Eq & F & Uk).
  exists pre, k, v, post.
  pose proof (apply_options_first_unknown pre post k v
                (set_opensource_runtime Options_default
                   (opensource_runtime_ this)) F Uk) as L.
  repeat split; try assumption.
  - apply Generate_rejected. unfold configure. cbv zeta.
    rewrite Eq. unfold RawOption in *. rewrite L. reflexivity.
  - rewrite Eq. exact L.
  - unfold lite_mutable_error. simpl. discriminate.
Qed.

(** C4.  When every key is recognised and both [lite] and [mutable] occur,
    in any positions, [Generate] returns false with the fixed message of
    the lite/mutable conflict and opens nothing. *)
Theorem lite_with_mutable_rejected (this : JavaGenerator)
    (file : FileDescriptor) (parameter : string) (ctx : GeneratorContext)
    (error : string) :
  Forall (fun option => recognized (fst option) = true)
         (ParseGeneratorParameter parameter) ->
  In "lite" (keys (ParseGeneratorParameter parameter)) ->
  In "mutable" (keys (ParseGeneratorParameter parameter)) ->
  Generate this file parameter ctx error =
    mkOutcome false
      "lite runtime generator option cannot be used with mutable API."
      (mkRun ctx [] []).
Proof.
  intros F Hl Hm. apply Generate_rejected. unfold configure. cbv zeta.
  destruct (apply_options_recognized _
              (set_opensource_runtime Options_default
                 (opensource_runtime_ this)) F) as [fo E].
  rewrite E. apply apply_options_fields in E.
  destruct E as (_ & _ & E2 & _ & E4 & _).
  apply has_key_In in Hl, Hm. rewrite Hl in E4. rewrite Hm in E2.
  rewrite orb_true_r in E2, E4. rewrite E2, E4. reflexivity.
Qed.

End ConfigurationErrors.

Lemma unknown_option_fails_fast_witness :
  exists pre k v post,
    ParseGeneratorParameter "lite,mutable,colour=red,shared,size"
      = pre ++ (k, v) :: post /\
    Forall (fun option => recognized (fst option) = true) pre /\
    recognized k = false /\
    Generate Demo.protoc Demo.unit "lite,mutable,colour=red,shared,size"
             [("kept.txt", "kept")] "untouched" =
      mkOutcome false (StrCat "Unknown generator option: " k)
                (mkRun [("kept.txt", "kept")] [] []) /\
    apply_options
      (ParseGeneratorParameter "lite,mutable,colour=red,shared,size")
      (set_opensource_runtime Options_default
         (opensource_runtime_ Demo.protoc)) =
      (fst (apply_options pre
              (set_opensource_runtime Options_default
                 (opensource_runtime_ Demo.protoc))),
       Some (StrCat "Unknown generator option: " k)) /\
    StrCat "Unknown generator option: " k <> lite_mutable_error.
Proof.
  apply (unknown_option_fails_fast (collab := Demo.backend) Demo.protoc
           Demo.unit "lite,mutable,colour=red,shared,size"
           [("kept.txt", "kept")] "untouched" "size").
  - vm_compute. right. right. right. right. left. reflexivity.
  - reflexivity.
Defined.

Lemma lite_with_mutable_rejected_witness :
  Generate Demo.protoc Demo.unit "mutable,output_list_file=o,immutable,lite"
           [("kept.txt", "kept")] "untouched" =
    mkOutcome false
      "lite runtime generator option cannot be used with mutable API."
      (mkRun [("kept.txt", "kept")] [] []).
Proof.
  apply (lite_with_mutable_rejected (collab := Demo.backend)).
  - vm_compute. repeat constructor.
  - vm_compute. right. right. right. left. reflexivity.
  - vm_compute. left. reflexivity.
Defined.

(** ** Variant selection *)

Lemma fill_defaults_variants (fo : Options) :
  generate_immutable_code (fill_defaults fo)
    || generate_mutable_code (fill_defaults fo)
    || generate_shared_code (fill_defaults fo) = true.
Proof.
  unfold fill_defaults.
  destruct (generate_immutable_code fo) eqn:I,
           (generate_mutable_code fo) eqn:M,
           (generate_shared_code fo) eqn:S;
    simpl; rewrite ?I, ?M, ?S; reflexivity.
Qed.

(** C6.  For an accepted configuration the generators are built in this
    order: one for the immutable API, with its flag true, when
    [generate_immutable_code] is set, then one with its flag false when
    [generate_mutable_code] is set.  Each carries the file and the
    configuration.  [generate_shared_code] adds no generator: flipping it
    leaves the sequence as it is, and a configuration that builds no
    generator at all is one that asks for the shared code only. *)
Theorem variants_selected_in_order {FileDescriptor : Type}
    (file : FileDescriptor) (osr : bool) (options : list RawOption)
    (cfg : Options) :
  configure osr options = inr cfg ->
  map immutable_api_ (make_file_generators file cfg) =
    (if generate_immutable_code cfg then [true] else [])
    ++ (if generate_mutable_code cfg then [false] else []) /\
  Forall (fun g => file_ g = file /\ options_ g = cfg)
         (make_file_generators file cfg) /\
  (forall shared,
     map immutable_api_
         (make_file_generators file (set_generate_shared_code cfg shared)) =
     map immutable_api_ (make_file_generators file cfg)) /\
  (make_file_generators file cfg = [] -> generate_shared_code cfg = true).
Proof.
  intros H. apply configure_inr in H. destruct H as (fo & _ & _ & ->).
  pose proof (fill_defaults_variants fo) as V. revert V.
  generalize (fill_defaults fo). intros c V. unfold make_file_generators.
  destruct (generate_immutable_code c) eqn:I,
           (generate_mutable_code c) eqn:M; simpl; rewrite ?I, ?M;
    repeat split; try reflexivity; try discriminate;
    repeat constructor; auto.
Qed.

Lemma variants_selected_in_order_witness :
  map immutable_api_
      (make_file_generators Demo.unit
         (mkOptions true true true false true false EmptyString EmptyString)) =
    (if generate_immutable_code
          (mkOptions true true true false true false EmptyString EmptyString)
     then [true] else [])
    ++ (if generate_mutable_code
             (mkOptions true true true false true false EmptyString EmptyString)
        then [false] else []).
Proof.
  apply (variants_selected_in_order Demo.unit true
           [("shared", EmptyString); ("mutable", EmptyString);
            ("immutable", EmptyString)]).
  reflexivity.
Defined.

(** ** The two passes and the manifests *)

Lemma StrCat_empty_r (s : string) : StrCat s EmptyString = s.
Proof.
  unfold StrCat. induction s as [|c s IH]; simpl; [reflexivity|].
  now rewrite IH.
Qed.

Lemma StrCat_assoc (a b c : string) :
  StrCat (StrCat a b) c = StrCat a (StrCat b c).
Proof.
  unfold StrCat. induction a as [|x a IH]; simpl; [reflexivity|].
  now rewrite IH.
Qed.

(** The printing loop writes one line per path, in the order of the
    vector, after what the sink already holds. *)
Lemma fold_Printer_Print (paths : list string) :
  forall stream,
    fold_left Printer_Print paths stream = StrCat stream (lines paths).
Proof.
  induction paths as [|p rest IH]; intros stream; simpl.
  - now rewrite StrCat_empty_r.
  - rewrite IH. unfold Printer_Print. now rewrite StrCat_assoc.
Qed.

Lemma print_list_lines (paths : list string) : print_list paths = lines paths.
Proof. unfold print_list. now rewrite fold_Printer_Print. Qed.

Lemma configure_fields (osr : bool) (options : list RawOption) (cfg : Options) :
  configure osr options = inr cfg ->
  annotate_code cfg = has_key "annotate_code" options /\
  annotation_list_file cfg =
    last_value "annotation_list_file" options EmptyString /\
  output_list_file cfg = last_value "output_list_file" options EmptyString.
Proof.
  intros H. apply configure_inr in H. destruct H as (fo & E & _ & ->).
  apply apply_options_fields in E.
  destruct E as (_ & _ & _ & _ & _ & _ & E6 & E7 & E8).
  unfold fill_defaults.
  destruct (negb (generate_immutable_code fo)
            && negb (generate_mutable_code fo)
            && negb (generate_shared_code fo)); simpl; auto.
Qed.

Section Orchestration.

Context {FileDescriptor GeneratedCodeInfo : Type}.
Context {collab : Collaborators FileDescriptor GeneratedCodeInfo}.

Implicit Types (g : FileGenerator FileDescriptor) (r : Run).

(** One generator that cannot be validated makes the whole pass fail. *)
Lemma validate_all_fails (gens : list (FileGenerator FileDescriptor)) g :
  In g gens ->
  (forall e, fst (Validate g e) = false) ->
  forall error, fst (validate_all gens error) = false.
Proof.
  intros Hin Hbad. induction gens as [|g0 rest IH]; intros error.
  - contradiction.
  - simpl. destruct (Validate g0 error) as [ok e1] eqn:V.
    destruct ok; [|reflexivity].
    destruct Hin as [->|Hin]; [|now apply IH].
    specialize (Hbad error). rewrite V in Hbad. discriminate.
Qed.

(** A pass that succeeds over well-behaved validators hands [*error]
    back as it got it. *)
Lemma validate_all_frame (gens : list (FileGenerator FileDescriptor)) :
  Validate_writes_error_only_on_failure collab ->
  forall error error',
    validate_all gens error = (true, error') -> error' = error.
Proof.
  intros Hfr. induction gens as [|g0 rest IH]; intros error error' H;
    simpl in H.
  - now inversion H.
  - destruct (Validate g0 error) as [ok e1] eqn:V.
    destruct ok; [|discriminate].
    pose proof (Hfr g0 error) as F. rewrite V in F. simpl in F.
    rewrite (IH _ _ H). now apply F.
Qed.

(** Without [annotate_code] an iteration of the generation pass touches
    [all_annotations] only through [GenerateSiblings]. *)
Lemma generate_one_annotations (P : list string -> Prop) (cfg : Options)
    g r :
  annotate_code cfg = false ->
  (forall dir r0,
     P (all_annotations r0) ->
     P (all_annotations (GenerateSiblings g dir r0))) ->
  P (all_annotations r) ->
  P (all_annotations (generate_one cfg r g)).
Proof.
  intros A Hsib HP. unfold generate_one. rewrite A.
  destruct (FileGenerator_Generate g false) as [text info].
  apply Hsib. exact HP.
Qed.

Lemma generate_all_annotations (P : list string -> Prop) (cfg : Options)
    (gens : list (FileGenerator FileDescriptor)) :
  annotate_code cfg = false ->
  Forall (fun g => options_ g = cfg) gens ->
  (forall g dir r0,
     annotate_code (options_ g) = false ->
     P (all_annotations r0) ->
     P (all_annotations (GenerateSiblings g dir r0))) ->
  forall r,
    P (all_annotations r) ->
    P (all_annotations (generate_all cfg gens r)).
Proof.
  intros A F Hsib. unfold generate_all.
  induction gens as [|g0 rest IH]; intros r HP; simpl; [exact HP|].
  pose proof (Forall_inv F) as Hg. pose proof (Forall_inv_tail F) as Hrest.
  simpl in Hg. apply IH; [assumption|].
  apply generate_one_annotations; try assumption.
  intros dir r0. apply Hsib. now rewrite Hg.
Qed.

Lemma make_file_generators_options (file : FileDescriptor) (cfg : Options) :
  Forall (fun g => options_ g = cfg) (make_file_generators file cfg).
Proof.
  unfold make_file_generators.
  destruct (generate_immutable_code cfg), (generate_mutable_code cfg);
    simpl; repeat constructor.
Qed.

(** The shape of a successful call. *)
Lemma Generate_success (this : JavaGenerator) (file : FileDescriptor)
    (parameter : string) (ctx : GeneratorContext) (error : string) :
  result (Generate this file parameter ctx error) = true ->
  exists cfg error',
    configure (opensource_runtime_ this)
              (ParseGeneratorParameter parameter) = inr cfg /\
    validate_all (make_file_generators file cfg) error = (true, error') /\
    Generate this file parameter ctx error =
      mkOutcome true error'
        (write_annotation_list cfg
           (write_output_list cfg
              (generate_all cfg (make_file_generators file cfg)
                 (mkRun ctx [] [])))).
Proof.
  unfold Generate.
  destruct (configure _ _) as [msg|cfg]; [discriminate|].
  destruct (validate_all _ error) as [ok error'] eqn:V.
  destruct ok; [|discriminate].
  intros _. exists cfg, error'. repeat split. exact V.
Qed.

End Orchestration.

Section OrchestrationProperties.

Context {FileDescriptor GeneratedCodeInfo : Type}.
Context {collab : Collaborators FileDescriptor GeneratedCodeInfo}.

(** C1.  When the configuration is accepted and one of the generators it
    selects cannot be validated, whichever it is and however many were
    selected, [Generate] returns false, the context is the caller's (no
    sink was opened) and the list of generated files is empty: the
    generation pass starts only after the validation pass has accepted
    every generator.  [*error] holds what the validation pass left. *)
Theorem failed_validation_opens_nothing (this : JavaGenerator)
    (file : FileDescriptor) (parameter : string) (ctx : GeneratorContext)
    (error : string) (cfg : Options)
    (bad : FileGenerator FileDescriptor) :
  configure (opensource_runtime_ this) (ParseGeneratorParameter parameter)
    = inr cfg ->
  In bad (make_file_generators file cfg) ->
  (forall e, fst (Validate bad e) = false) ->
  result (Generate this file parameter ctx error) = false /\
  run (Generate this file parameter ctx error) = mkRun ctx [] [] /\
  validate_all (make_file_generators file cfg) error =
    (false, error_slot (Generate this file parameter ctx error)).
Proof.
  intros C Hin Hbad. unfold Generate. rewrite C.
  pose proof (validate_all_fails _ _ Hin Hbad error) as V.
  destruct (validate_all (make_file_generators file cfg) error)
    as [ok error'].
  simpl in V. subst ok. repeat split.
Qed.

(** C7.  In a successful call whose options do not contain
    [annotate_code], [Generate] puts nothing into the list of annotation
    files: whatever holds of the empty list and is kept by the
    [GenerateSiblings] of generators that were not asked to annotate holds
    of the final list.  So the list is empty, for any number of
    generators and siblings, provided [GenerateSiblings] adds annotation
    files only on request. *)
Theorem no_annotations_without_annotate_code (this : JavaGenerator)
    (file : FileDescriptor) (parameter : string) (ctx : GeneratorContext)
    (error : string) :
  ~ In "annotate_code" (keys (ParseGeneratorParameter parameter)) ->
  result (Generate this file parameter ctx error) = true ->
  (forall P : list string -> Prop,
     P [] ->
     (forall g dir r,
        annotate_code (options_ g) = false ->
        P (all_annotations r) ->
        P (all_annotations (GenerateSiblings g dir r))) ->
     P (all_annotations (run (Generate this file parameter ctx error)))) /\
  (Siblings_annotate_only_on_request collab ->
   all_annotations (run (Generate this file parameter ctx error)) = []).
Proof.
  intros Hno Hok.
  destruct (Generate_success this file parameter ctx error Hok)
    as (cfg & error' & C & _ & ->).
  apply configure_fields in C. destruct C as (A & _ & _).
  rewrite (has_key_absent _ _ Hno) in A.
  assert (Inv : forall P : list string -> Prop,
             P [] ->
             (forall g dir r,
                annotate_code (options_ g) = false ->
                P (all_annotations r) ->
                P (all_annotations (GenerateSiblings g dir r))) ->
             P (all_annotations
                  (write_annotation_list cfg
                     (write_output_list cfg
                        (generate_all cfg (make_file_generators file cfg)
                           (mkRun ctx [] [])))))).
  { intros P P0 Hsib.
    assert (G : P (all_annotations
                     (generate_all cfg (make_file_generators file cfg)
                        (mkRun ctx [] [])))).
    { apply generate_all_annotations; auto.
      apply make_file_generators_options. }
    unfold write_annotation_list, write_output_list.
    destruct (negb (empty (annotation_list_file cfg)));
      destruct (negb (empty (output_list_file cfg))); simpl; exact G. }
  split; simpl.
  - exact Inv.
  - intros Hsib. symmetry. apply (Inv (fun l => [] = l)); [reflexivity|].
    intros g dir r Hg Hr. rewrite (Hsib g dir r Hg). exact Hr.
Qed.

(** C8.  In a successful call the two vectors are those the generation
    pass produced, and the context is the one it produced followed by a
    sink at [output_list_file], when that path is not empty, holding one
    line per path of [all_files] in order, and then by a sink at
    [annotation_list_file], when that path is not empty, holding one line
    per path of [all_annotations].  A path whose key never occurred among
    the options is empty, so no sink is opened for it, and the call
    succeeds all the same. *)
Theorem manifests_list_paths_in_order (this : JavaGenerator)
    (file : FileDescriptor) (parameter : string) (ctx : GeneratorContext)
    (error : string) :
  result (Generate this file parameter ctx error) = true ->
  exists cfg,
    configure (opensource_runtime_ this)
              (ParseGeneratorParameter parameter) = inr cfg /\
    let generated :=
      generate_all cfg (make_file_generators file cfg) (mkRun ctx [] []) in
    let out := run (Generate this file parameter ctx error) in
    all_files out = all_files generated /\
    all_annotations out = all_annotations generated /\
    context out =
      context generated
      ++ (if empty (output_list_file cfg) then []
          else [(output_list_file cfg, lines (all_files out))])
      ++ (if empty (annotation_list_file cfg) then []
          else [(annotation_list_file cfg, lines (all_annotations out))]) /\
    (~ In "output_list_file" (keys (ParseGeneratorParameter parameter)) ->
     empty (output_list_file cfg) = true) /\
    (~ In "annotation_list_file" (keys (ParseGeneratorParameter parameter)) ->
     empty (annotation_list_file cfg) = true).
Proof.
  intros Hok.
  destruct (Generate_success this file parameter ctx error Hok)
    as (cfg & error' & C & _ & ->).
  exists cfg. split; [exact C|].
  apply configure_fields in C. destruct C as (_ & A & O).
  cbv zeta. unfold write_annotation_list, write_output_list, Open.
  rewrite !print_list_lines.
  repeat split.
  - destruct (empty (annotation_list_file cfg)),
             (empty (output_list_file cfg)); reflexivity.
  - destruct (empty (annotation_list_file cfg)),
             (empty (output_list_file cfg)); reflexivity.
  - destruct (empty (annotation_list_file cfg)),
             (empty (output_list_file cfg)); simpl;
      rewrite ?app_nil_r, <- ?app_assoc; reflexivity.
  - intros Hno. rewrite O, (last_value_absent _ _ _ Hno). reflexivity.
  - intros Hno. rewrite A, (last_value_absent _ _ _ Hno). reflexivity.
Qed.

(** C10.  In a successful call [*error] holds what the validation pass
    left in it: neither of the two assignments of [Generate] itself was
    executed.  With a [Validate] that writes [*error] only when it
    rejects, [*error] is what the caller passed in. *)
Theorem error_slot_untouched_on_success (this : JavaGenerator)
    (file : FileDescriptor) (parameter : string) (ctx : GeneratorContext)
    (error : string) :
  result (Generate this file parameter ctx error) = true ->
  (exists cfg,
     configure (opensource_runtime_ this)
               (ParseGeneratorParameter parameter) = inr cfg /\
     validate_all (make_file_generators file cfg) error =
       (true, error_slot (Generate this file parameter ctx error))) /\
  (Validate_writes_error_only_on_failure collab ->
   error_slot (Generate this file parameter ctx error) = error).
Proof.
  intros Hok.
  destruct (Generate_success this file parameter ctx error Hok)
    as (cfg & error' & C & V & ->).
  simpl. split.
  - now exists cfg.
  - intros Hfr. exact (validate_all_frame _ Hfr _ _ V).
Qed.

End OrchestrationProperties.

(** ** The properties on the small back end *)

Lemma Demo_validate_writes_error_only_on_failure :
  Validate_writes_error_only_on_failure Demo.backend.
Proof.
  intros g e. simpl. unfold Demo.validate.
  destruct (Demo.mutable_conflict (file_ g) && negb (immutable_api_ g));
    simpl; [discriminate|reflexivity].
Defined.

Lemma Demo_sibling_annotations (g : FileGenerator Demo.FileDescriptor)
    (dir : string) (names : list string) :
  annotate_code (options_ g) = false ->
  forall r,
    all_annotations (fold_left (Demo.sibling g dir) names r) =
      all_annotations r.
Proof.
  intros A. induction names as [|m rest IH]; intros r; simpl; [reflexivity|].
  rewrite IH. unfold Demo.sibling. rewrite A. reflexivity.
Defined.

Lemma Demo_siblings_annotate_only_on_request :
  Siblings_annotate_only_on_request Demo.backend.
Proof.
  intros g dir r A. simpl. unfold Demo.siblings.
  now apply Demo_sibling_annotations.
Defined.

Lemma failed_validation_opens_nothing_witness :
  length
    (make_file_generators Demo.shop
       (mkOptions true true false false true false EmptyString EmptyString))
  = 2 /\
  result (Generate Demo.protoc Demo.shop "immutable,mutable"
                   [("kept.txt", "kept")] "untouched") = false /\
  run (Generate Demo.protoc Demo.shop "immutable,mutable"
                [("kept.txt", "kept")] "untouched")
    = mkRun [("kept.txt", "kept")] [] [] /\
  validate_all
    (make_file_generators Demo.shop
       (mkOptions true true false false true false EmptyString EmptyString))
    "untouched"
  = (false,
     error_slot (Generate Demo.protoc Demo.shop "immutable,mutable"
                          [("kept.txt", "kept")] "untouched")).
Proof.
  split; [reflexivity|].
  apply (failed_validation_opens_nothing (collab := Demo.backend)
           Demo.protoc Demo.shop "immutable,mutable" [("kept.txt", "kept")]
           "untouched"
           (mkOptions true true false false true false EmptyString EmptyString)
           (mkFileGenerator Demo.shop
              (mkOptions true true false false true false
                         EmptyString EmptyString)
              false)).
  - reflexivity.
  - right. left. reflexivity.
  - intros e. reflexivity.
Defined.

Lemma no_annotations_without_annotate_code_witness :
  all_annotations
    (run (Generate Demo.protoc Demo.shop
                   "immutable,annotation_list_file=meta.list" [] "untouched"))
  = [].
Proof.
  apply (no_annotations_without_annotate_code (collab := Demo.backend)
           Demo.protoc Demo.shop "immutable,annotation_list_file=meta.list"
           [] "untouched").
  - vm_compute. intros [H|[H|[]]]; discriminate H.
  - reflexivity.
  - exact Demo_siblings_annotate_only_on_request.
Defined.

Lemma manifests_list_paths_in_order_witness :
  exists cfg,
    configure (opensource_runtime_ Demo.protoc)
              (ParseGeneratorParameter "output_list_file=manifest.txt")
      = inr cfg /\
    let generated :=
      generate_all cfg (make_file_generators Demo.ab cfg) (mkRun [] [] []) in
    let out :=
      run (Generate Demo.protoc Demo.ab "output_list_file=manifest.txt"
                    [] "untouched") in
    all_files out = all_files generated /\
    all_annotations out = all_annotations generated /\
    context out =
      context generated
      ++ (if empty (output_list_file cfg) then []
          else [(output_list_file cfg, lines (all_files out))])
      ++ (if empty (annotation_list_file cfg) then []
          else [(annotation_list_file cfg, lines (all_annotations out))]) /\
    (~ In "output_list_file"
          (keys (ParseGeneratorParameter "output_list_file=manifest.txt")) ->
     empty (output_list_file cfg) = true) /\
    (~ In "annotation_list_file"
          (keys (ParseGeneratorParameter "output_list_file=manifest.txt")) ->
     empty (annotation_list_file cfg) = true).
Proof.
  apply (manifests_list_paths_in_order (collab := Demo.backend)
           Demo.protoc Demo.ab "output_list_file=manifest.txt" []
           "untouched").
  reflexivity.
Defined.

Lemma error_slot_untouched_on_success_witness :
  error_slot (Generate Demo.protoc Demo.unit "immutable,mutable,annotate_code"
                       [] "untouched")
  = "untouched".
Proof.
  apply (error_slot_untouched_on_success (collab := Demo.backend)
           Demo.protoc Demo.unit "immutable,mutable,annotate_code" []
           "untouched").
  - reflexivity.
  - exact Demo_validate_writes_error_only_on_failure.
Defined.

(** The driver run on the file [A] with sibling [B] and a manifest: two
    files, and a manifest of two lines in the order of generation. *)
Example Generate_A_B_manifest :
  run (Generate Demo.protoc Demo.ab "output_list_file=manifest.txt" []
                "untouched")
  = mkRun [("A.java", "class A {}");
           ("B.java", "class B {}");
           ("manifest.txt",
            StrCat "A.java" (StrCat LF (StrCat "B.java" LF)))]
          ["A.java"; "B.java"] [].
Proof. reflexivity. Qed.

(** Two variants with annotations: each main file and each sibling gets its
    [.pb.meta] file, listed in the annotation manifest. *)
Example Generate_two_variants_annotated :
  all_files
    (run (Generate Demo.protoc Demo.unit
                   "mutable,annotate_code,immutable" [] "untouched"))
  = ["com/shop/Unit.java"; "com/shop/Gram.java";
     "com/shop/MutableUnit.java"; "com/shop/Gram.java"]
  /\
  all_annotations
    (run (Generate Demo.protoc Demo.unit
                   "mutable,annotate_code,immutable" [] "untouched"))
  = ["com/shop/Unit.java.pb.meta"; "com/shop/Gram.java.pb.meta";
     "com/shop/MutableUnit.java.pb.meta"; "com/shop/Gram.java.pb.meta"].
Proof. split; reflexivity. Qed.

(** [shared] alone selects no generator: the call succeeds and writes
    nothing. *)
Example Generate_shared_only :
  Generate Demo.protoc Demo.unit "shared" [] "untouched"
  = mkOutcome true "untouched" (mkRun [] [] []).
Proof. reflexivity. Qed.

(** ** Further properties of the option handling *)

Lemma has_key_Permutation (key : string) (a b : list RawOption) :
  Permutation a b -> has_key key a = has_key key b.
Proof.
  intros P.
  assert (Pk : Permutation (keys a) (keys b)) by now apply Permutation_map.
  destruct (has_key key a) eqn:A, (has_key key b) eqn:B; try reflexivity.
  - apply has_key_In in A. apply (Permutation_in _ Pk) in A.
    apply has_key_In in A. congruence.
  - apply has_key_In in B. apply (Permutation_in _ (Permutation_sym Pk)) in B.
    apply has_key_In in B. congruence.
Qed.

(** [configure] in closed form, from the keys that occur and the last
    values of the two path keys. *)
Lemma configure_by_keys (osr : bool) (options : list RawOption) :
  configure osr options =
    match apply_options options (set_opensource_runtime Options_default osr)
    with
    | (_, Some msg) => inl msg
    | (_, None) =>
        if has_key "lite" options && has_key "mutable" options
        then inl lite_mutable_error
        else inr
          {| generate_immutable_code :=
               has_key "immutable" options
               || negb (has_key "mutable" options)
                  && negb (has_key "shared" options);
             generate_mutable_code := has_key "mutable" options;
             generate_shared_code :=
               has_key "shared" options
               || negb (has_key "immutable" options)
                  && negb (has_key "mutable" options);
             enforce_lite := has_key "lite" options;
             opensource_runtime := osr;
             annotate_code := has_key "annotate_code" options;
             annotation_list_file :=
               last_value "annotation_list_file" options EmptyString;
             output_list_file :=
               last_value "output_list_file" options EmptyString |}
    end.
Proof.
  unfold configure. cbv zeta.
  destruct (apply_options options _) as [fo [msg|]] eqn:E; [reflexivity|].
  apply apply_options_fields in E.
  destruct E as (_ & E1 & E2 & E3 & E4 & E5 & E6 & E7 & E8).
  simpl in E1, E2, E3, E4, E5, E6, E7, E8.
  rewrite E4, E2.
  destruct (has_key "lite" options && has_key "mutable" options);
    [reflexivity|].
  unfold fill_defaults. rewrite E1, E2, E3. destruct fo; simpl in *. subst.
  destruct (has_key "immutable" options), (has_key "mutable" options),
           (has_key "shared" options); reflexivity.
Qed.

(** X1.  The options are accepted exactly when every key is one of the
    seven recognised ones and [lite] and [mutable] do not both occur. *)
Theorem configure_accepts_iff (osr : bool) (options : list RawOption) :
  (exists cfg, configure osr options = inr cfg) <->
  (Forall (fun option => recognized (fst option) = true) options /\
   has_key "lite" options && has_key "mutable" options = false).
Proof.
  rewrite configure_by_keys. split.
  - intros [cfg H].
    destruct (apply_options options _) as [fo [msg|]] eqn:E; [discriminate|].
    apply apply_options_fields in E. destruct E as (F & _).
    split; [exact F|].
    destruct (has_key "lite" options && has_key "mutable" options);
      [discriminate|reflexivity].
  - intros [F L].
    destruct (apply_options_recognized options
                (set_opensource_runtime Options_default osr) F) as [fo E].
    rewrite E, L. eexists. reflexivity.
Qed.

Lemma configure_accepts_iff_witness :
  exists cfg,
    configure true [("lite", "on"); ("shared", EmptyString);
                    ("annotation_list_file", "meta.list")] = inr cfg.
Proof.
  apply (proj2 (configure_accepts_iff true
                  [("lite", "on"); ("shared", EmptyString);
                   ("annotation_list_file", "meta.list")])).
  split; [repeat constructor|reflexivity].
Defined.

(** X2.  An accepted configuration is determined field by field by the
    options: a flag is set exactly when its key occurs, except that the
    immutable and the shared flag are also set when none of [immutable],
    [mutable], [shared] occurs; [opensource_runtime] is the member of the
    generator, which no option changes; each path is the value of the last
    occurrence of its key, and empty without one. *)
Theorem configure_closed_form (osr : bool) (options : list RawOption)
    (cfg : Options) :
  configure osr options = inr cfg ->
  cfg =
    {| generate_immutable_code :=
         has_key "immutable" options
         || negb (has_key "mutable" options)
            && negb (has_key "shared" options);
       generate_mutable_code := has_key "mutable" options;
       generate_shared_code :=
         has_key "shared" options
         || negb (has_key "immutable" options)
            && negb (has_key "mutable" options);
       enforce_lite := has_key "lite" options;
       opensource_runtime := osr;
       annotate_code := has_key "annotate_code" options;
       annotation_list_file :=
         last_value "annotation_list_file" options EmptyString;
       output_list_file :=
         last_value "output_list_file" options EmptyString |}.
Proof.
  rewrite configure_by_keys.
  destruct (apply_options options _) as [fo [msg|]]; [discriminate|].
  destruct (has_key "lite" options && has_key "mutable" options);
    [discriminate|].
  intros H. inversion H. reflexivity.
Qed.

Lemma configure_closed_form_witness :
  mkOptions false true true false true true "b.list" "o.list" =
    {| generate_immutable_code := false;
       generate_mutable_code := true;
       generate_shared_code := true;
       enforce_lite := false;
       opensource_runtime := true;
       annotate_code := true;
       annotation_list_file := "b.list";
       output_list_file := "o.list" |}.
Proof.
  apply (configure_closed_form true
           [("annotation_list_file", "a.list"); ("shared", "x");
            ("output_list_file", "o.list"); ("mutable", EmptyString);
            ("annotate_code", EmptyString);
            ("annotation_list_file", "b.list")]).
  reflexivity.
Defined.

(** X3.  The order of the options matters for the two paths only: when a
    list of options is accepted, so is every rearrangement of it, with the
    same five flags and the same [opensource_runtime]. *)
Theorem configure_flags_order_independent (osr : bool)
    (options options' : list RawOption) (cfg : Options) :
  Permutation options options' ->
  configure osr options = inr cfg ->
  exists cfg',
    configure osr options' = inr cfg' /\
    generate_immutable_code cfg' = generate_immutable_code cfg /\
    generate_mutable_code cfg' = generate_mutable_code cfg /\
    generate_shared_code cfg' = generate_shared_code cfg /\
    enforce_lite cfg' = enforce_lite cfg /\
    annotate_code cfg' = annotate_code cfg /\
    opensource_runtime cfg' = opensource_runtime cfg.
Proof.
  intros P H. rewrite configure_by_keys in H.
  destruct (apply_options options _) as [fo [msg|]] eqn:E; [discriminate|].
  apply apply_options_fields in E. destruct E as (F & _).
  destruct (has_key "lite" options && has_key "mutable" options) eqn:L;
    [discriminate|].
  inversion H; subst cfg; clear H.
  destruct (apply_options_recognized options'
              (set_opensource_runtime Options_default osr)
              (Permutation_Forall P F)) as [fo' E'].
  eexists. rewrite configure_by_keys, E'.
  rewrite <- !(has_key_Permutation _ _ _ P), L.
  split; [reflexivity|]. simpl. repeat split.
Qed.

Lemma configure_flags_order_independent_witness :
  exists cfg',
    configure false
      [("lite", EmptyString); ("output_list_file", "a");
       ("output_list_file", "b"); ("shared", EmptyString)] = inr cfg' /\
    generate_immutable_code cfg' =
      generate_immutable_code (mkOptions false false true true false false
                                         EmptyString "a") /\
    generate_mutable_code cfg' =
      generate_mutable_code (mkOptions false false true true false false
                                       EmptyString "a") /\
    generate_shared_code cfg' =
      generate_shared_code (mkOptions false false true true false false
                                      EmptyString "a") /\
    enforce_lite cfg' =
      enforce_lite (mkOptions false false true true false false
                              EmptyString "a") /\
    annotate_code cfg' =
      annotate_code (mkOptions false false true true false false
                               EmptyString "a") /\
    opensource_runtime cfg' =
      opensource_runtime (mkOptions false false true true false false
                                    EmptyString "a").
Proof.
  apply (configure_flags_order_independent false
           [("shared", EmptyString); ("output_list_file", "b");
            ("lite", EmptyString); ("output_list_file", "a")]).
  - apply Permutation_sym.
    apply (perm_trans (l' := [("lite", EmptyString); ("shared", EmptyString);
                              ("output_list_file", "a");
                              ("output_list_file", "b")])).
    + apply perm_skip.
      apply (perm_trans (l' := [("output_list_file", "a");
                                ("shared", EmptyString);
                                ("output_list_file", "b")])).
      * apply perm_skip. apply perm_swap.
      * apply perm_swap.
    + apply (perm_trans (l' := [("shared", EmptyString); ("lite", EmptyString);
                                ("output_list_file", "a");
                                ("output_list_file", "b")])).
      * apply perm_swap.
      * apply perm_skip.
        apply (perm_trans (l' := [("output_list_file", "b");
                                  ("lite", EmptyString);
                                  ("output_list_file", "a")])).
        -- apply (perm_trans (l' := [("lite", EmptyString);
                                     ("output_list_file", "b");
                                     ("output_list_file", "a")])).
           ++ apply perm_skip. apply perm_swap.
           ++ apply perm_swap.
        -- apply Permutation_refl.
  - reflexivity.
Defined.

Lemma apply_option_forget_unused_value (option : RawOption) (fo : Options) :
  apply_option (forget_unused_value option) fo = apply_option option fo.
Proof.
  destruct option as [k v]. unfold forget_unused_value, path_key. simpl fst.
  destruct (k =? "output_list_file") eqn:E1; [reflexivity|].
  destruct (k =? "annotation_list_file") eqn:E2; [reflexivity|].
  unfold apply_option. simpl. rewrite E1, E2. reflexivity.
Qed.

(** X4.  Only the values of [output_list_file] and [annotation_list_file]
    are read: dropping the value of every other option, recognised or not,
    changes neither the accepted configuration nor the error message. *)
Theorem configure_ignores_unused_values (osr : bool)
    (options : list RawOption) :
  configure osr (map forget_unused_value options) = configure osr options.
Proof.
  unfold configure. cbv zeta.
  generalize (set_opensource_runtime Options_default osr). intros fo.
  assert (E : forall fo0,
             apply_options (map forget_unused_value options) fo0 =
             apply_options options fo0).
  { induction options as [|o rest IH]; intros fo0; simpl; [reflexivity|].
    rewrite apply_option_forget_unused_value.
    destruct (apply_option o fo0); [reflexivity|apply IH]. }
  now rewrite E.
Qed.

(** X5.  The option loop only ever sets flags: a flag that is set before the
    loop is still set when the loop is left, whether at its end or at an
    unrecognised key, and [opensource_runtime] is what it was. *)
Theorem apply_options_never_clears (options : list RawOption) :
  forall (fo fo' : Options) (stop : option string),
    apply_options options fo = (fo', stop) ->
    (generate_immutable_code fo = true -> generate_immutable_code fo' = true) /\
    (generate_mutable_code fo = true -> generate_mutable_code fo' = true) /\
    (generate_shared_code fo = true -> generate_shared_code fo' = true) /\
    (enforce_lite fo = true -> enforce_lite fo' = true) /\
    (annotate_code fo = true -> annotate_code fo' = true) /\
    opensource_runtime fo' = opensource_runtime fo.
Proof.
  induction options as [|o rest IH]; intros fo fo' stop H; simpl in H.
  - inversion H; subst. repeat split; auto.
  - destruct (apply_option o fo) as [msg|fo1] eqn:E.
    + inversion H; subst. repeat split; auto.
    + apply apply_option_fields in E.
      destruct E as (_ & E1 & E2 & E3 & E4 & E5 & E6 & _).
      destruct (IH _ _ _ H) as (H1 & H2 & H3 & H4 & H5 & H6).
      repeat split.
      * intros T. apply H1. rewrite E1, T. reflexivity.
      * intros T. apply H2. rewrite E2, T. reflexivity.
      * intros T. apply H3. rewrite E3, T. reflexivity.
      * intros T. apply H4. rewrite E4, T. reflexivity.
      * intros T. apply H5. rewrite E6, T. reflexivity.
      * congruence.
Qed.

Lemma apply_options_never_clears_witness :
  (generate_immutable_code
     (mkOptions false true false true true false EmptyString EmptyString)
   = true ->
   generate_immutable_code
     (mkOptions false true true true true false EmptyString "o") = true) /\
  (generate_mutable_code
     (mkOptions false true false true true false EmptyString EmptyString)
   = true ->
   generate_mutable_code
     (mkOptions false true true true true false EmptyString "o") = true) /\
  (generate_shared_code
     (mkOptions false true false true true false EmptyString EmptyString)
   = true ->
   generate_shared_code
     (mkOptions false true true true true false EmptyString "o") = true) /\
  (enforce_lite
     (mkOptions false true false true true false EmptyString EmptyString)
   = true ->
   enforce_lite
     (mkOptions false true true true true false EmptyString "o") = true) /\
  (annotate_code
     (mkOptions false true false true true false EmptyString EmptyString)
   = true ->
   annotate_code
     (mkOptions false true true true true false EmptyString "o") = true) /\
  opensource_runtime
    (mkOptions false true true true true false EmptyString "o") =
  opensource_runtime
    (mkOptions false true false true true false EmptyString EmptyString).
Proof.
  apply (apply_options_never_clears
           [("shared", EmptyString); ("output_list_file", "o");
            ("nonsense", "1"); ("annotate_code", EmptyString)]
           (mkOptions false true false true true false EmptyString EmptyString)
           (mkOptions false true true true true false EmptyString "o")
           (Some "Unknown generator option: nonsense")).
  reflexivity.
Defined.

(** X6.  Which generators an accepted list of options selects, read off its
    keys: the immutable one when [immutable] occurs or when neither
    [mutable] nor [shared] does, then the one built with the flag false
    when [mutable] occurs.  At most two are selected, and none when [shared]
    occurs without [immutable] and [mutable]. *)
Theorem variants_by_keys {FileDescriptor : Type} (file : FileDescriptor)
    (osr : bool) (options : list RawOption) (cfg : Options) :
  configure osr options = inr cfg ->
  map immutable_api_ (make_file_generators file cfg) =
    (if has_key "immutable" options
        || negb (has_key "mutable" options)
           && negb (has_key "shared" options)
     then [true] else [])
    ++ (if has_key "mutable" options then [false] else []) /\
  length (make_file_generators file cfg) <= 2 /\
  (make_file_generators file cfg = [] <->
   has_key "shared" options = true /\
   has_key "immutable" options = false /\
   has_key "mutable" options = false).
Proof.
  intros H. rewrite configure_by_keys in H.
  destruct (apply_options options _) as [fo [msg|]]; [discriminate|].
  destruct (has_key "lite" options && has_key "mutable" options);
    [discriminate|].
  inversion H; subst cfg; clear H.
  unfold make_file_generators. simpl.
  destruct (has_key "immutable" options), (has_key "mutable" options),
           (has_key "shared" options); simpl;
    (split; [reflexivity|]); (split; [lia|]);
    split; try discriminate; try (intros (? & ? & ?); discriminate);
    auto.
Qed.

Lemma variants_by_keys_witness :
  make_file_generators Demo.unit
    (mkOptions false false true true false false EmptyString EmptyString)
    = [] <->
  has_key "shared" [("lite", EmptyString); ("shared", EmptyString)] = true /\
  has_key "immutable" [("lite", EmptyString); ("shared", EmptyString)]
    = false /\
  has_key "mutable" [("lite", EmptyString); ("shared", EmptyString)] = false.
Proof.
  apply (variants_by_keys Demo.unit false
           [("lite", EmptyString); ("shared", EmptyString)]).
  reflexivity.
Defined.

(** ** Further properties of the driver *)

(** A loop left by [return false] was stopped by its first unrecognised
    key, and the message names that key. *)
Lemma apply_options_abort (options : list RawOption) :
  forall fo fo' msg,
    apply_options options fo = (fo', Some msg) ->
    exists pre k v post,
      options = pre ++ (k, v) :: post /\
      Forall (fun option => recognized (fst option) = true) pre /\
      recognized k = false /\
      msg = StrCat "Unknown generator option: " k.
Proof.
  induction options as [|[k0 v0] rest IH]; intros fo fo' msg H; simpl in H;
    [discriminate|].
  destruct (apply_option (k0, v0) fo) as [m|fo1] eqn:E.
  - inversion H; subst. exists [], k0, v0, rest.
    destruct (recognized k0) eqn:R.
    + destruct (apply_option_recognized (k0, v0) fo' R) as [fo2 E2].
      congruence.
    + rewrite (apply_option_unknown (k0, v0) fo' R) in E.
      inversion E. repeat split; auto.
  - apply apply_option_fields in E. destruct E as (R & _).
    destruct (IH _ _ _ H) as (pre & k & v & post & Eq & F & U & M).
    exists ((k0, v0) :: pre), k, v, post. subst rest.
    repeat split; auto.
Qed.

Section DriverFurther.

Context {FileDescriptor GeneratedCodeInfo : Type}.
Context {collab : Collaborators FileDescriptor GeneratedCodeInfo}.

Implicit Types (g : FileGenerator FileDescriptor) (r : Run).

(** The validation pass over a concatenation. *)
Lemma validate_all_app (pre post : list (FileGenerator FileDescriptor)) :
  forall error,
    validate_all (pre ++ post) error =
      match validate_all pre error with
      | (true, error') => validate_all post error'
      | stop => stop
      end.
Proof.
  induction pre as [|g0 pre IH]; intros error; simpl; [reflexivity|].
  destruct (Validate g0 error) as [ok e1].
  destruct ok; [apply IH|reflexivity].
Qed.

(** X7.  A call that returns false has opened no sink and recorded no
    file, whatever made it fail: the context is the caller's and both
    vectors are empty. *)
Theorem failure_leaves_nothing (this : JavaGenerator)
    (file : FileDescriptor) (parameter : string) (ctx : GeneratorContext)
    (error : string) :
  result (Generate this file parameter ctx error) = false ->
  run (Generate this file parameter ctx error) = mkRun ctx [] [].
Proof.
  unfold Generate.
  destruct (configure _ _) as [msg|cfg]; [reflexivity|].
  destruct (validate_all _ error) as [ok error'].
  destruct ok; [discriminate|reflexivity].
Qed.

(** X8.  A call that returns false failed in one of three ways, and
    [*error] tells which: an unrecognised key, named in the message after
    the fixed prefix, the first one in the list; or, all keys being
    recognised, both [lite] and [mutable], with the fixed message; or, the
    options being accepted, a generator that was not validated, with what
    the validation pass left in [*error]. *)
Theorem failure_causes (this : JavaGenerator)
    (file : FileDescriptor) (parameter : string) (ctx : GeneratorContext)
    (error : string) :
  result (Generate this file parameter ctx error) = false ->
  (exists pre k v post,
     ParseGeneratorParameter parameter = pre ++ (k, v) :: post /\
     Forall (fun option => recognized (fst option) = true) pre /\
     recognized k = false /\
     error_slot (Generate this file parameter ctx error) =
       StrCat "Unknown generator option: " k)
  \/
  (Forall (fun option => recognized (fst option) = true)
          (ParseGeneratorParameter parameter) /\
   has_key "lite" (ParseGeneratorParameter parameter) = true /\
   has_key "mutable" (ParseGeneratorParameter parameter) = true /\
   error_slot (Generate this file parameter ctx error) = lite_mutable_error)
  \/
  (exists cfg,
     configure (opensource_runtime_ this) (ParseGeneratorParameter parameter)
       = inr cfg /\
     validate_all (make_file_generators file cfg) error =
       (false, error_slot (Generate this file parameter ctx error))).
Proof.
  unfold Generate.
  destruct (configure _ _) as [msg|cfg] eqn:C.
  - intros _. simpl. rewrite configure_by_keys in C.
    destruct (apply_options _ _) as [fo [m|]] eqn:E.
    + left. inversion C; subst m.
      destruct (apply_options_abort _ _ _ _ E)
        as (pre & k & v & post & Eq & F & U & M).
      exists pre, k, v, post. repeat split; assumption.
    + right. left. apply apply_options_fields in E. destruct E as (F & _).
      destruct (has_key "lite" _) eqn:L, (has_key "mutable" _) eqn:M;
        simpl in C; try discriminate.
      inversion C. repeat split; auto.
  - destruct (validate_all _ error) as [ok error'] eqn:V.
    destruct ok; [discriminate|].
    intros _. right. right. exists cfg. split; [reflexivity|exact V].
Qed.

(** X9.  The validation pass stops at the first generator that is not
    validated: the call returns false with [*error] as that generator's
    [Validate] left it, and the generators after it are not consulted. *)
Theorem first_failed_validation_reported (this : JavaGenerator)
    (file : FileDescriptor) (parameter : string) (ctx : GeneratorContext)
    (error error1 : string) (cfg : Options)
    (pre post : list (FileGenerator FileDescriptor)) g :
  configure (opensource_runtime_ this) (ParseGeneratorParameter parameter)
    = inr cfg ->
  make_file_generators file cfg = pre ++ g :: post ->
  validate_all pre error = (true, error1) ->
  fst (Validate g error1) = false ->
  Generate this file parameter ctx error =
    mkOutcome false (snd (Validate g error1)) (mkRun ctx [] []).
Proof.
  intros C Eq Vpre Vg. unfold Generate. rewrite C, Eq.
  rewrite validate_all_app, Vpre. simpl.
  destruct (Validate g error1) as [ok e2]. simpl in Vg. subst ok.
  reflexivity.
Qed.

End DriverFurther.

Lemma failure_leaves_nothing_witness :
  run (Generate Demo.protoc Demo.shop "mutable" [("kept.txt", "kept")]
                "untouched")
  = mkRun [("kept.txt", "kept")] [] [].
Proof.
  apply (failure_leaves_nothing (collab := Demo.backend)).
  reflexivity.
Defined.

Lemma failure_causes_witness :
  (exists pre k v post,
     ParseGeneratorParameter "lite,mutable" = pre ++ (k, v) :: post /\
     Forall (fun option => recognized (fst option) = true) pre /\
     recognized k = false /\
     error_slot (Generate Demo.protoc Demo.unit "lite,mutable" [] "untouched")
       = StrCat "Unknown generator option: " k)
  \/
  (Forall (fun option => recognized (fst option) = true)
          (ParseGeneratorParameter "lite,mutable") /\
   has_key "lite" (ParseGeneratorParameter "lite,mutable") = true /\
   has_key "mutable" (ParseGeneratorParameter "lite,mutable") = true /\
   error_slot (Generate Demo.protoc Demo.unit "lite,mutable" [] "untouched")
     = lite_mutable_error)
  \/
  (exists cfg,
     configure (opensource_runtime_ Demo.protoc)
               (ParseGeneratorParameter "lite,mutable") = inr cfg /\
     validate_all (make_file_generators Demo.unit cfg) "untouched" =
       (false,
        error_slot (Generate Demo.protoc Demo.unit "lite,mutable" []
                             "untouched"))).
Proof.
  apply (failure_causes (collab := Demo.backend) Demo.protoc Demo.unit
           "lite,mutable" [] "untouched").
  reflexivity.
Defined.

Lemma first_failed_validation_reported_witness :
  Generate Demo.protoc Demo.shop "mutable,immutable" [] "untouched" =
    mkOutcome false
      (snd (Validate
              (mkFileGenerator Demo.shop
                 (mkOptions true true false false true false
                            EmptyString EmptyString)
                 false)
              "untouched"))
      (mkRun [] [] []).
Proof.
  apply (first_failed_validation_reported (collab := Demo.backend)
           Demo.protoc Demo.shop "mutable,immutable" [] "untouched"
           "untouched"
           (mkOptions true true false false true false EmptyString EmptyString)
           [mkFileGenerator Demo.shop
              (mkOptions true true false false true false
                         EmptyString EmptyString)
              true]
           []).
  - reflexivity.
  - reflexivity.
  - reflexivity.
  - reflexivity.
Defined.

(** ** What the generation pass and the manifests contain *)

Lemma extends_refl (r : Run) : extends r r.
Proof. exists [], [], []. now rewrite !app_nil_r. Qed.

Lemma extends_trans (a b c : Run) : extends a b -> extends b c -> extends a c.
Proof.
  intros (s1 & f1 & n1 & C1 & F1 & N1) (s2 & f2 & n2 & C2 & F2 & N2).
  exists (s1 ++ s2), (f1 ++ f2), (n1 ++ n2).
  rewrite C2, C1, F2, F1, N2, N1, !app_assoc. repeat split.
Qed.

Lemma extends_In (a b : Run) :
  extends a b ->
  (forall s, In s (context a) -> In s (context b)) /\
  (forall f, In f (all_files a) -> In f (all_files b)) /\
  (forall n, In n (all_annotations a) -> In n (all_annotations b)).
Proof.
  intros (s1 & f1 & n1 & C1 & F1 & N1). rewrite C1, F1, N1.
  repeat split; intros x Hx; apply in_or_app; now left.
Qed.

Lemma read_lines_line (path rest : string) :
  no_line_feed path = true ->
  read_lines (StrCat path (StrCat LF rest)) = path :: read_lines rest.
Proof.
  change (StrCat path (StrCat LF rest))
    with (append path (String (ascii_of_nat 10) rest)).
  induction path as [|c path IH]; intros H.
  - reflexivity.
  - simpl in H. apply andb_prop in H. destruct H as [Hc Hp].
    apply negb_true_iff in Hc. simpl. rewrite Hc. now rewrite (IH Hp).
Qed.

(** X10.  Read back line by line, a manifest gives the paths it was written
    from, in order, as long as no path contains a line feed. *)
Theorem manifest_round_trip (paths : list string) :
  forallb no_line_feed paths = true ->
  read_lines (print_list paths) = paths.
Proof.
  rewrite print_list_lines.
  induction paths as [|p rest IH]; intros H; simpl; [reflexivity|].
  simpl in H. apply andb_prop in H. destruct H as [Hp Hrest].
  rewrite StrCat_assoc, (read_lines_line _ _ Hp). now rewrite (IH Hrest).
Qed.

Lemma manifest_round_trip_witness :
  read_lines (print_list ["com/shop/Unit.java"; EmptyString; "B.java"])
  = ["com/shop/Unit.java"; EmptyString; "B.java"].
Proof.
  apply (manifest_round_trip ["com/shop/Unit.java"; EmptyString; "B.java"]).
  reflexivity.
Defined.

Section GenerationPass.

Context {FileDescriptor GeneratedCodeInfo : Type}.
Context {collab : Collaborators FileDescriptor GeneratedCodeInfo}.

Implicit Types (g : FileGenerator FileDescriptor) (r : Run).

(** One iteration of the generation pass continues the run it started
    from, and leaves the main file, and with [annotate_code] its
    [.pb.meta] file, both recorded and opened. *)
Lemma generate_one_contains (cfg : Options) r g :
  Siblings_only_append collab ->
  extends r (generate_one cfg r g) /\
  In (java_filename_of g) (all_files (generate_one cfg r g)) /\
  In (java_filename_of g, fst (FileGenerator_Generate g (annotate_code cfg)))
     (context (generate_one cfg r g)) /\
  (annotate_code cfg = true ->
   In (StrCat (java_filename_of g) ".pb.meta")
      (all_annotations (generate_one cfg r g)) /\
   In (StrCat (java_filename_of g) ".pb.meta",
       SerializeToZeroCopyStream (snd (FileGenerator_Generate g true)))
      (context (generate_one cfg r g))).
Proof.
  intros Hsib. unfold generate_one, java_filename_of.
  set (dir := JavaPackageToDir (java_package g)).
  set (name := StrCat dir (StrCat (classname g) ".java")).
  destruct (annotate_code cfg) eqn:A;
    destruct (FileGenerator_Generate g _) as [text info]; simpl fst;
    match goal with
    | |- context [GenerateSiblings g dir ?r0] =>
        destruct (Hsib g dir r0) as (s & f & n & C & F & N);
        simpl in C, F, N
    end; simpl; rewrite ?C, ?F, ?N; unfold Open in *.
  - split; [|split; [|split]].
    + exists ([(name, text)] ++ s ++ [(StrCat name ".pb.meta",
                                        SerializeToZeroCopyStream info)]),
             ([name] ++ f), ([StrCat name ".pb.meta"] ++ n).
      simpl. rewrite <- !app_assoc. repeat split.
    + rewrite !in_app_iff. simpl. auto.
    + rewrite !in_app_iff. simpl. auto.
    + intros _. rewrite !in_app_iff. simpl. auto.
  - split; [|split; [|split]].
    + exists ([(name, text)] ++ s), ([name] ++ f), n.
      rewrite C, F, N. simpl. rewrite <- !app_assoc. repeat split.
    + rewrite !in_app_iff. simpl. auto.
    + rewrite !in_app_iff. simpl. auto.
    + discriminate.
Qed.

Lemma generate_all_extends (cfg : Options)
    (gens : list (FileGenerator FileDescriptor)) :
  Siblings_only_append collab ->
  forall r, extends r (generate_all cfg gens r).
Proof.
  intros Hsib. unfold generate_all.
  induction gens as [|g0 rest IH]; intros r; simpl; [apply extends_refl|].
  eapply extends_trans; [|apply IH].
  now apply generate_one_contains.
Qed.

Lemma write_lists_extend (cfg : Options) r :
  extends r (write_annotation_list cfg (write_output_list cfg r)).
Proof.
  unfold write_annotation_list, write_output_list, Open.
  destruct (negb (empty (output_list_file cfg)));
    destruct (negb (empty (annotation_list_file cfg))); simpl.
  - eexists (_ :: _ :: nil), [], []. simpl.
    rewrite <- app_assoc, !app_nil_r. repeat split.
  - eexists [_], [], []. simpl. rewrite !app_nil_r. repeat split.
  - eexists [_], [], []. simpl. rewrite !app_nil_r. repeat split.
  - apply extends_refl.
Qed.

End GenerationPass.

Section GenerationProperties.

Context {FileDescriptor GeneratedCodeInfo : Type}.
Context {collab : Collaborators FileDescriptor GeneratedCodeInfo}.

Implicit Types (g : FileGenerator FileDescriptor) (r : Run).

(** What an iteration left is still there at the end of the pass. *)
Lemma generate_all_contains (cfg : Options)
    (gens : list (FileGenerator FileDescriptor)) g :
  Siblings_only_append collab ->
  In g gens ->
  forall r,
    In (java_filename_of g) (all_files (generate_all cfg gens r)) /\
    In (java_filename_of g,
        fst (FileGenerator_Generate g (annotate_code cfg)))
       (context (generate_all cfg gens r)) /\
    (annotate_code cfg = true ->
     In (StrCat (java_filename_of g) ".pb.meta")
        (all_annotations (generate_all cfg gens r)) /\
     In (StrCat (java_filename_of g) ".pb.meta",
         SerializeToZeroCopyStream (snd (FileGenerator_Generate g true)))
        (context (generate_all cfg gens r))).
Proof.
  intros Hsib. induction gens as [|g0 rest IH]; intros Hin r;
    [contradiction|].
  destruct Hin as [->|Hin].
  - destruct (generate_one_contains cfg r g Hsib) as (_ & Hf & Hc & Ha).
    pose proof (generate_all_extends cfg rest Hsib (generate_one cfg r g))
      as E.
    apply extends_In in E. destruct E as (Ec & Ef & En).
    change (generate_all cfg (g :: rest) r)
      with (generate_all cfg rest (generate_one cfg r g)).
    split; [auto|]. split; [auto|].
    intros A. destruct (Ha A). auto.
  - change (generate_all cfg (g0 :: rest) r)
      with (generate_all cfg rest (generate_one cfg r g0)).
    now apply IH.
Qed.

Lemma last_value_last (key value default : string)
    (pre post : list RawOption) :
  ~ In key (keys post) ->
  last_value key (pre ++ (key, value) :: post) default = value.
Proof.
  intros Hno. unfold last_value. rewrite fold_left_app. simpl.
  rewrite String.eqb_refl. exact (last_value_absent key post value Hno).
Qed.

(** X11.  When the last [output_list_file] option has an empty value, a
    successful call writes no output list, whatever value an earlier
    occurrence gave: after the generation pass only the annotation list is
    written. *)
Theorem empty_output_list_value_writes_no_list (this : JavaGenerator)
    (file : FileDescriptor) (parameter : string) (ctx : GeneratorContext)
    (error : string) (pre post : list RawOption) :
  ParseGeneratorParameter parameter =
    pre ++ ("output_list_file", EmptyString) :: post ->
  ~ In "output_list_file" (keys post) ->
  result (Generate this file parameter ctx error) = true ->
  exists cfg,
    configure (opensource_runtime_ this) (ParseGeneratorParameter parameter)
      = inr cfg /\
    run (Generate this file parameter ctx error) =
      write_annotation_list cfg
        (generate_all cfg (make_file_generators file cfg) (mkRun ctx [] [])).
Proof.
  intros Eq Hno Hok.
  destruct (Generate_success this file parameter ctx error Hok)
    as (cfg & error' & C & _ & ->).
  exists cfg. split; [exact C|].
  apply configure_fields in C. destruct C as (_ & _ & O).
  rewrite Eq, (last_value_last _ _ _ _ _ Hno) in O.
  simpl. unfold write_output_list. rewrite O. reflexivity.
Qed.

(** X12.  When [annotation_list_file] is given without [annotate_code], a
    successful call still opens the annotation list, and writes nothing
    into it, provided [GenerateSiblings] adds annotation files only on
    request. *)
Theorem annotation_list_empty_without_annotate_code (this : JavaGenerator)
    (file : FileDescriptor) (parameter : string) (ctx : GeneratorContext)
    (error : string) :
  Siblings_annotate_only_on_request collab ->
  ~ In "annotate_code" (keys (ParseGeneratorParameter parameter)) ->
  result (Generate this file parameter ctx error) = true ->
  exists cfg,
    configure (opensource_runtime_ this) (ParseGeneratorParameter parameter)
      = inr cfg /\
    (empty (annotation_list_file cfg) = false ->
     context (run (Generate this file parameter ctx error)) =
       context (write_output_list cfg
                  (generate_all cfg (make_file_generators file cfg)
                     (mkRun ctx [] [])))
       ++ [(annotation_list_file cfg, EmptyString)]).
Proof.
  intros Hsib Hno Hok.
  destruct (Generate_success this file parameter ctx error Hok)
    as (cfg & error' & C & _ & ->).
  exists cfg. split; [exact C|].
  apply configure_fields in C. destruct C as (A & _ & _).
  rewrite (has_key_absent _ _ Hno) in A.
  assert (G : [] = all_annotations
                     (generate_all cfg (make_file_generators file cfg)
                        (mkRun ctx [] []))).
  { apply (generate_all_annotations (fun l => [] = l)); auto.
    - apply make_file_generators_options.
    - intros g dir r0 Hg Hr. rewrite (Hsib g dir r0 Hg). exact Hr. }
  intros Hne. simpl. unfold write_annotation_list. rewrite Hne. simpl.
  unfold Open. f_equal. f_equal. f_equal.
  unfold write_output_list.
  destruct (negb (empty (output_list_file cfg))); simpl; now rewrite <- G.
Qed.

(** X13.  The sinks the caller's context already holds stay where they
    are: a call only opens further sinks after them, provided
    [GenerateSiblings] only appends. *)
Theorem caller_context_kept (this : JavaGenerator)
    (file : FileDescriptor) (parameter : string) (ctx : GeneratorContext)
    (error : string) :
  Siblings_only_append collab ->
  exists sinks,
    context (run (Generate this file parameter ctx error)) = ctx ++ sinks.
Proof.
  intros Hsib.
  assert (E : extends (mkRun ctx [] [])
                      (run (Generate this file parameter ctx error))).
  { unfold Generate.
    destruct (configure _ _) as [msg|cfg]; [apply extends_refl|].
    destruct (validate_all _ error) as [ok error'].
    destruct ok; [|apply extends_refl].
    simpl. eapply extends_trans; [|apply write_lists_extend].
    now apply generate_all_extends. }
  destruct E as (sinks & _ & _ & E & _). now exists sinks.
Qed.

(** X14.  After a successful call, every selected generator has its main
    file, named by its package directory, its class name and [.java], among
    the generated files, and the context holds a sink at that path with
    what the generator printed, provided [GenerateSiblings] only appends. *)
Theorem main_files_generated (this : JavaGenerator)
    (file : FileDescriptor) (parameter : string) (ctx : GeneratorContext)
    (error : string) (cfg : Options) g :
  Siblings_only_append collab ->
  configure (opensource_runtime_ this) (ParseGeneratorParameter parameter)
    = inr cfg ->
  In g (make_file_generators file cfg) ->
  result (Generate this file parameter ctx error) = true ->
  In (java_filename_of g)
     (all_files (run (Generate this file parameter ctx error))) /\
  In (java_filename_of g, fst (FileGenerator_Generate g (annotate_code cfg)))
     (context (run (Generate this file parameter ctx error))).
Proof.
  intros Hsib C Hin Hok.
  destruct (Generate_success this file parameter ctx error Hok)
    as (cfg' & error' & C' & _ & ->).
  assert (cfg' = cfg) by congruence. subst cfg'. simpl.
  destruct (generate_all_contains cfg _ g Hsib Hin (mkRun ctx [] []))
    as (Hf & Hc & _).
  pose proof (write_lists_extend cfg
                (generate_all cfg (make_file_generators file cfg)
                   (mkRun ctx [] []))) as E.
  apply extends_In in E. destruct E as (Ec & Ef & _). auto.
Qed.

(** X15.  After a successful call with [annotate_code], every selected
    generator has the [.pb.meta] file of its main file among the annotation
    files, and the context holds a sink at that path with the serialised
    annotations of the main file, provided [GenerateSiblings] only
    appends. *)
Theorem annotation_files_generated (this : JavaGenerator)
    (file : FileDescriptor) (parameter : string) (ctx : GeneratorContext)
    (error : string) (cfg : Options) g :
  Siblings_only_append collab ->
  configure (opensource_runtime_ this) (ParseGeneratorParameter parameter)
    = inr cfg ->
  In "annotate_code" (keys (ParseGeneratorParameter parameter)) ->
  In g (make_file_generators file cfg) ->
  result (Generate this file parameter ctx error) = true ->
  In (StrCat (java_filename_of g) ".pb.meta")
     (all_annotations (run (Generate this file parameter ctx error))) /\
  In (StrCat (java_filename_of g) ".pb.meta",
      SerializeToZeroCopyStream (snd (FileGenerator_Generate g true)))
     (context (run (Generate this file parameter ctx error))).
Proof.
  intros Hsib C Hkey Hin Hok.
  destruct (Generate_success this file parameter ctx error Hok)
    as (cfg' & error' & C' & _ & ->).
  assert (cfg' = cfg) by congruence. subst cfg'. simpl.
  assert (A : annotate_code cfg = true).
  { apply configure_fields in C. destruct C as (A & _). rewrite A.
    now apply has_key_In. }
  destruct (generate_all_contains cfg _ g Hsib Hin (mkRun ctx [] []))
    as (_ & _ & Ha).
  destruct (Ha A) as (Hn & Hc).
  pose proof (write_lists_extend cfg
                (generate_all cfg (make_file_generators file cfg)
                   (mkRun ctx [] []))) as E.
  apply extends_In in E. destruct E as (Ec & _ & En). auto.
Qed.

End GenerationProperties.

(** ** The further properties on the small back end *)

Lemma Demo_sibling_extends (g : FileGenerator Demo.FileDescriptor)
    (dir : string) (names : list string) :
  forall r, extends r (fold_left (Demo.sibling g dir) names r).
Proof.
  induction names as [|m rest IH]; intros r; simpl; [apply extends_refl|].
  eapply extends_trans; [|apply IH].
  unfold Demo.sibling, Open. destruct (annotate_code (options_ g)).
  - eexists (_ :: _ :: nil), [_], [_]. simpl.
    rewrite <- app_assoc. repeat split.
  - eexists [_], [_], []. simpl. rewrite app_nil_r. repeat split.
Defined.

Lemma Demo_siblings_only_append : Siblings_only_append Demo.backend.
Proof.
  intros g dir r. simpl. unfold Demo.siblings. apply Demo_sibling_extends.
Defined.

Lemma empty_output_list_value_writes_no_list_witness :
  exists cfg,
    configure (opensource_runtime_ Demo.protoc)
      (ParseGeneratorParameter
         "output_list_file=o.list,immutable,output_list_file=")
      = inr cfg /\
    run (Generate Demo.protoc Demo.unit
           "output_list_file=o.list,immutable,output_list_file=" []
           "untouched") =
      write_annotation_list cfg
        (generate_all cfg (make_file_generators Demo.unit cfg)
           (mkRun [] [] [])).
Proof.
  apply (empty_output_list_value_writes_no_list (collab := Demo.backend)
           Demo.protoc Demo.unit
           "output_list_file=o.list,immutable,output_list_file=" []
           "untouched"
           [("output_list_file", "o.list"); ("immutable", EmptyString)] []).
  - reflexivity.
  - simpl. intros [].
  - reflexivity.
Defined.

Lemma annotation_list_empty_without_annotate_code_witness :
  exists cfg,
    configure (opensource_runtime_ Demo.protoc)
      (ParseGeneratorParameter "annotation_list_file=meta.list,mutable")
      = inr cfg /\
    (empty (annotation_list_file cfg) = false ->
     context (run (Generate Demo.protoc Demo.unit
                     "annotation_list_file=meta.list,mutable" []
                     "untouched")) =
       context (write_output_list cfg
                  (generate_all cfg (make_file_generators Demo.unit cfg)
                     (mkRun [] [] [])))
       ++ [(annotation_list_file cfg, EmptyString)]).
Proof.
  apply (annotation_list_empty_without_annotate_code
           (collab := Demo.backend) Demo.protoc Demo.unit
           "annotation_list_file=meta.list,mutable" [] "untouched").
  - exact Demo_siblings_annotate_only_on_request.
  - vm_compute. intros [H|[H|[]]]; discriminate H.
  - reflexivity.
Defined.

Lemma caller_context_kept_witness :
  exists sinks,
    context (run (Generate Demo.protoc Demo.unit "immutable,annotate_code"
                    [("kept.txt", "kept")] "untouched"))
    = [("kept.txt", "kept")] ++ sinks.
Proof.
  apply (caller_context_kept (collab := Demo.backend)).
  exact Demo_siblings_only_append.
Defined.

Lemma main_files_generated_witness :
  In (java_filename_of
        (mkFileGenerator Demo.unit
           (mkOptions true true false false true false EmptyString "o.list")
           false))
     (all_files
        (run (Generate Demo.protoc Demo.unit
                "output_list_file=o.list,immutable,mutable" []
                "untouched"))) /\
  In (java_filename_of
        (mkFileGenerator Demo.unit
           (mkOptions true true false false true false EmptyString "o.list")
           false),
      fst (FileGenerator_Generate
             (mkFileGenerator Demo.unit
                (mkOptions true true false false true false EmptyString
                           "o.list")
                false)
             (annotate_code
                (mkOptions true true false false true false EmptyString
                           "o.list"))))
     (context
        (run (Generate Demo.protoc Demo.unit
                "output_list_file=o.list,immutable,mutable" []
                "untouched"))).
Proof.
  apply (main_files_generated (collab := Demo.backend) Demo.protoc
           Demo.unit "output_list_file=o.list,immutable,mutable" []
           "untouched"
           (mkOptions true true false false true false EmptyString "o.list")
           (mkFileGenerator Demo.unit
              (mkOptions true true false false true false EmptyString
                         "o.list")
              false)).
  - exact Demo_siblings_only_append.
  - reflexivity.
  - right. left. reflexivity.
  - reflexivity.
Defined.

Lemma annotation_files_generated_witness :
  In (StrCat
        (java_filename_of
           (mkFileGenerator Demo.unit
              (mkOptions true false true false true true EmptyString
                         EmptyString)
              true))
        ".pb.meta")
     (all_annotations
        (run (Generate Demo.protoc Demo.unit "annotate_code" []
                "untouched"))) /\
  In (StrCat
        (java_filename_of
           (mkFileGenerator Demo.unit
              (mkOptions true false true false true true EmptyString
                         EmptyString)
              true))
        ".pb.meta",
      SerializeToZeroCopyStream
        (snd (FileGenerator_Generate
                (mkFileGenerator Demo.unit
                   (mkOptions true false true false true true EmptyString
                              EmptyString)
                   true)
                true)))
     (context
        (run (Generate Demo.protoc Demo.unit "annotate_code" []
                "untouched"))).
Proof.
  apply (annotation_files_generated (collab := Demo.backend) Demo.protoc
           Demo.unit "annotate_code" [] "untouched"
           (mkOptions true false true false true true EmptyString
                      EmptyString)
           (mkFileGenerator Demo.unit
              (mkOptions true false true false true true EmptyString
                         EmptyString)
              true)).
  - exact Demo_siblings_only_append.
  - reflexivity.
  - left. reflexivity.
  - left. reflexivity.
  - reflexivity.
Defined.
